(** * Field schema model of the resource cache

  A shallow embedding of the schema type declarations
  ([GenericField], [AliasField], ..., [FieldSchema], [ResourceSchema])
  together with the plain structured document each typed value denotes,
  and the properties of that model. *)

From Stdlib Require Import String List Bool ZArith Lia.
Import ListNotations.
Open Scope string_scope.
Open Scope list_scope.
#[local] Set Warnings "-register-all".

(** ** Raw JSON values *)

Module Raw.

(** Modelled from the spec: the module '../json/raw', from which the schema
    types import [ObjectValue] and [PrimitiveValue], is not part of the
    sources.  The spec calls these the plain structured documents held by
    the raw cache store; they are modelled as JSON values, with numbers
    restricted to integers (no property below depends on a number). *)
Inductive PrimitiveValue : Type :=
  | PString (s : string)
  | PNumber (n : Z)
  | PBoolean (b : bool)
  | PNull.

Inductive Value : Type :=
  | VPrimitive (p : PrimitiveValue)
  | VArray (items : list Value)
  | VObject (props : list (string * Value)).

(** [{ [key: string]: Value }]: the properties in document order. *)
Definition ObjectValue : Type := list (string * Value).

Definition VString (s : string) : Value := VPrimitive (PString s).
Definition VBoolean (b : bool) : Value := VPrimitive (PBoolean b).
Definition VNull : Value := VPrimitive PNull.

(** Property read [o[k]]; [None] stands for JavaScript's [undefined]. *)
Fixpoint get (k : string) (o : ObjectValue) : option Value :=
  match o with
  | [] => None
  | (k', v) :: rest => if String.eqb k k' then Some v else get k rest
  end.

(** [k in o] *)
Definition has (k : string) (o : ObjectValue) : bool :=
  match get k o with Some _ => true | None => false end.

(** An optional property [k?: T]: left out of the document when unset. *)
Definition optional (k : string) (v : option Value) : ObjectValue :=
  match v with Some x => [(k, x)] | None => [] end.

(** Read a property of a value that should be an object. *)
Definition prop (k : string) (v : Value) : option Value :=
  match v with VObject o => get k o | _ => None end.

End Raw.
Import Raw.

(** ** The [kind] tags *)

(** Every string literal used as a [kind] discriminant in the schema types. *)
Inductive Kind : Type :=
| K_field | K_alias | K_id | K_hash | K_local
| K_object | K_schema_object | K_array | K_schema_array
| K_derived | K_resource | K_collection
| K_attribute | K_belongsTo | K_hasMany.

Definition kind_tag (k : Kind) : string :=
  match k with
  | K_field => "field"
  | K_alias => "alias"
  | K_id => "@id"
  | K_hash => "@hash"
  | K_local => "@local"
  | K_object => "object"
  | K_schema_object => "schema-object"
  | K_array => "array"
  | K_schema_array => "schema-array"
  | K_derived => "derived"
  | K_resource => "resource"
  | K_collection => "collection"
  | K_attribute => "attribute"
  | K_belongsTo => "belongsTo"
  | K_hasMany => "hasMany"
  end.

Definition Kind_eqb (a b : Kind) : bool :=
  match a, b with
  | K_field, K_field | K_alias, K_alias | K_id, K_id | K_hash, K_hash
  | K_local, K_local | K_object, K_object
  | K_schema_object, K_schema_object | K_array, K_array
  | K_schema_array, K_schema_array | K_derived, K_derived
  | K_resource, K_resource | K_collection, K_collection
  | K_attribute, K_attribute | K_belongsTo, K_belongsTo
  | K_hasMany, K_hasMany => true
  | _, _ => false
  end.

Definition all_kinds : list Kind :=
  [K_field; K_alias; K_id; K_hash; K_local; K_object; K_schema_object;
   K_array; K_schema_array; K_derived; K_resource; K_collection;
   K_attribute; K_belongsTo; K_hasMany].

(** The identity-bearing kinds: [@id] and [@hash]. *)
Definition identity_bearing (k : Kind) : bool :=
  match k with K_id | K_hash => true | _ => false end.

(** ** Literal types *)

(** The type [null], with its single value. *)
Inductive Null : Type := null.

(** The literal type [false], with its single value. *)
Inductive False_ : Type := false_.

Definition False_value (_ : False_) : bool := false.

(** ** The field types *)

Module GenericField.
Record t : Type := mk {
  name : string;
  type : option string;
  options : option ObjectValue
  }.
Definition kind (_ : t) : Kind := K_field.
Definition toJSON (f : t) : Value :=
  VObject ([("kind", VString (kind_tag (kind f))); ("name", VString (name f))]
           ++ optional "type" (option_map VString (type f))
           ++ optional "options" (option_map VObject (options f))).
End GenericField.

Module IdentityField.
Record t : Type := mk { name : string }.
Definition kind (_ : t) : Kind := K_id.
Definition toJSON (f : t) : Value :=
  VObject [("kind", VString (kind_tag (kind f))); ("name", VString (name f))].
End IdentityField.

Module HashField.
Record t : Type := mk {
  name : option string;   (* string | null *)
  type : string;
  options : option ObjectValue
  }.
Definition kind (_ : t) : Kind := K_hash.
Definition toJSON (f : t) : Value :=
  VObject ([("kind", VString (kind_tag (kind f)));
            ("name", match name f with Some n => VString n | None => VNull end);
            ("type", VString (type f))]
           ++ optional "options" (option_map VObject (options f))).
End HashField.

Module LocalField.
Module Options.
Record t : Type := mk { defaultValue : option PrimitiveValue }.
Definition toJSON (o : t) : ObjectValue :=
  optional "defaultValue" (option_map VPrimitive (defaultValue o)).
End Options.
Record t : Type := mk {
  name : string;
  type : option string;
  options : option Options.t
}.
Definition kind (_ : t) : Kind := K_local.
Definition toJSON (f : t) : Value :=
  VObject ([("kind", VString (kind_tag (kind f))); ("name", VString (name f))]
           ++ optional "type" (option_map VString (type f))
           ++ optional "options"
                (option_map (fun o => VObject (Options.toJSON o)) (options f))).
End LocalField.

Module ObjectField.
Record t : Type := mk {
  name : string;
  type : option string;
  options : option ObjectValue
  }.
Definition kind (_ : t) : Kind := K_object.
Definition toJSON (f : t) : Value :=
  VObject ([("kind", VString (kind_tag (kind f))); ("name", VString (name f))]
           ++ optional "type" (option_map VString (type f))
           ++ optional "options" (option_map VObject (options f))).
End ObjectField.

Module SchemaObjectField.
Module Options.
Record t : Type := mk {
  polymorphic : option bool;
  type : option string
}.
Definition toJSON (o : t) : ObjectValue :=
  optional "polymorphic" (option_map VBoolean (polymorphic o))
  ++ optional "type" (option_map VString (type o)).
End Options.
Record t : Type := mk {
  name : string;
  type : string;
  options : option Options.t
}.
Definition kind (_ : t) : Kind := K_schema_object.
Definition toJSON (f : t) : Value :=
  VObject ([("kind", VString (kind_tag (kind f))); ("name", VString (name f));
            ("type", VString (type f))]
           ++ optional "options"
                (option_map (fun o => VObject (Options.toJSON o)) (options f))).
End SchemaObjectField.

Module ArrayField.
Record t : Type := mk {
  name : string;
  type : option string;
  options : option ObjectValue
}.
Definition kind (_ : t) : Kind := K_array.
Definition toJSON (f : t) : Value :=
  VObject ([("kind", VString (kind_tag (kind f))); ("name", VString (name f))]
           ++ optional "type" (option_map VString (type f))
           ++ optional "options" (option_map VObject (options f))).
End ArrayField.

Module SchemaArrayField.
Module Options.
Record t : Type := mk {
  key : option string;       (* '@identity' | '@index' | '@hash' | string *)
  polymorphic : option bool;
  type : option string
}.
Definition toJSON (o : t) : ObjectValue :=
  optional "key" (option_map VString (key o))
  ++ optional "polymorphic" (option_map VBoolean (polymorphic o))
  ++ optional "type" (option_map VString (type o)).
End Options.
Record t : Type := mk {
  name : string;
  type : string;
  options : option Options.t
}.
Definition kind (_ : t) : Kind := K_schema_array.
Definition toJSON (f : t) : Value :=
  VObject ([("kind", VString (kind_tag (kind f))); ("name", VString (name f));
            ("type", VString (type f))]
           ++ optional "options"
                (option_map (fun o => VObject (Options.toJSON o)) (options f))).
End SchemaArrayField.

Module DerivedField.
Record t : Type := mk {
  name : string;
  type : string;
  options : option ObjectValue
}.
Definition kind (_ : t) : Kind := K_derived.
Definition toJSON (f : t) : Value :=
  VObject ([("kind", VString (kind_tag (kind f))); ("name", VString (name f));
            ("type", VString (type f))]
           ++ optional "options" (option_map VObject (options f))).
End DerivedField.

(** [string | null] as a document value. *)
Definition nullable (s : option string) : Value :=
  match s with Some x => VString x | None => VNull end.

(** The options shared, property for property, by [ResourceField] and
    [CollectionField]: all four are optional. *)
Module RelationshipOptions.
Record t : Type := mk {
  async : option bool;
  inverse : option (option string);   (* inverse?: string | null *)
  as_ : option string;                (* as?: string *)
  polymorphic : option bool
}.
Definition toJSON (o : t) : ObjectValue :=
  optional "async" (option_map VBoolean (async o))
  ++ optional "inverse" (option_map nullable (inverse o))
  ++ optional "as" (option_map VString (as_ o))
  ++ optional "polymorphic" (option_map VBoolean (polymorphic o)).
End RelationshipOptions.

Module ResourceField.
Module Options := RelationshipOptions.
Record t : Type := mk {
  name : string;
  type : string;
  options : option Options.t
}.
Definition kind (_ : t) : Kind := K_resource.
Definition toJSON (f : t) : Value :=
  VObject ([("kind", VString (kind_tag (kind f))); ("name", VString (name f));
            ("type", VString (type f))]
           ++ optional "options"
                (option_map (fun o => VObject (Options.toJSON o)) (options f))).
End ResourceField.

Module CollectionField.
Module Options := RelationshipOptions.
Record t : Type := mk {
  name : string;
  type : string;
  options : option Options.t
}.
Definition kind (_ : t) : Kind := K_collection.
Definition toJSON (f : t) : Value :=
  VObject ([("kind", VString (kind_tag (kind f))); ("name", VString (name f));
            ("type", VString (type f))]
           ++ optional "options"
                (option_map (fun o => VObject (Options.toJSON o)) (options f))).
End CollectionField.

Module LegacyAttributeField.
Record t : Type := mk {
  name : string;
  type : option (option string);      (* type?: string | null *)
  options : option ObjectValue
}.
Definition kind (_ : t) : Kind := K_attribute.
Definition toJSON (f : t) : Value :=
  VObject ([("kind", VString (kind_tag (kind f))); ("name", VString (name f))]
           ++ optional "type" (option_map nullable (type f))
           ++ optional "options" (option_map VObject (options f))).
End LegacyAttributeField.

(** The options shared, property for property, by [LegacyBelongsToField] and
    [LegacyHasManyField]: [async] and [inverse] are mandatory, and
    [resetOnRemoteUpdate] is either omitted or the literal [false]. *)
Module LegacyRelationshipOptions.
Record t : Type := mk {
  async : bool;
  inverse : option string;            (* inverse: string | null *)
  as_ : option string;                (* as?: string *)
  polymorphic : option bool;
  resetOnRemoteUpdate : option False_ (* resetOnRemoteUpdate?: false *)
}.
Definition toJSON (o : t) : ObjectValue :=
  [("async", VBoolean (async o)); ("inverse", nullable (inverse o))]
  ++ optional "as" (option_map VString (as_ o))
  ++ optional "polymorphic" (option_map VBoolean (polymorphic o))
  ++ optional "resetOnRemoteUpdate"
       (option_map (fun b => VBoolean (False_value b)) (resetOnRemoteUpdate o)).
End LegacyRelationshipOptions.

Module LegacyBelongsToField.
Module Options := LegacyRelationshipOptions.
Record t : Type := mk {
  name : string;
  type : string;
  options : Options.t                 (* mandatory *)
}.
Definition kind (_ : t) : Kind := K_belongsTo.
Definition toJSON (f : t) : Value :=
  VObject [("kind", VString (kind_tag (kind f))); ("name", VString (name f));
           ("type", VString (type f));
           ("options", VObject (Options.toJSON (options f)))].
End LegacyBelongsToField.

Module LegacyHasManyField.
Module Options := LegacyRelationshipOptions.
Record t : Type := mk {
  name : string;
  type : string;
  options : Options.t                 (* mandatory *)
}.
Definition kind (_ : t) : Kind := K_hasMany.
Definition toJSON (f : t) : Value :=
  VObject [("kind", VString (kind_tag (kind f))); ("name", VString (name f));
           ("type", VString (type f));
           ("options", VObject (Options.toJSON (options f)))].
End LegacyHasManyField.

(** ** Aliases *)

Module AliasField.

(** The union written out for [options]: the field definition for which
    the alias stands. *)
Inductive Target : Type :=
| TGeneric (f : GenericField.t)
| TObject (f : ObjectField.t)
| TSchemaObject (f : SchemaObjectField.t)
| TArray (f : ArrayField.t)
| TSchemaArray (f : SchemaArrayField.t)
| TResource (f : ResourceField.t)
| TCollection (f : CollectionField.t)
| TLegacyAttribute (f : LegacyAttributeField.t)
| TLegacyBelongsTo (f : LegacyBelongsToField.t)
| TLegacyHasMany (f : LegacyHasManyField.t).

Definition targetKind (x : Target) : Kind :=
  match x with
  | TGeneric f => GenericField.kind f
  | TObject f => ObjectField.kind f
  | TSchemaObject f => SchemaObjectField.kind f
  | TArray f => ArrayField.kind f
  | TSchemaArray f => SchemaArrayField.kind f
  | TResource f => ResourceField.kind f
  | TCollection f => CollectionField.kind f
  | TLegacyAttribute f => LegacyAttributeField.kind f
  | TLegacyBelongsTo f => LegacyBelongsToField.kind f
  | TLegacyHasMany f => LegacyHasManyField.kind f
  end.

Definition targetName (x : Target) : string :=
  match x with
  | TGeneric f => GenericField.name f
  | TObject f => ObjectField.name f
  | TSchemaObject f => SchemaObjectField.name f
  | TArray f => ArrayField.name f
  | TSchemaArray f => SchemaArrayField.name f
  | TResource f => ResourceField.name f
  | TCollection f => CollectionField.name f
  | TLegacyAttribute f => LegacyAttributeField.name f
  | TLegacyBelongsTo f => LegacyBelongsToField.name f
  | TLegacyHasMany f => LegacyHasManyField.name f
  end.

Definition targetToJSON (x : Target) : Value :=
  match x with
  | TGeneric f => GenericField.toJSON f
  | TObject f => ObjectField.toJSON f
  | TSchemaObject f => SchemaObjectField.toJSON f
  | TArray f => ArrayField.toJSON f
  | TSchemaArray f => SchemaArrayField.toJSON f
  | TResource f => ResourceField.toJSON f
  | TCollection f => CollectionField.toJSON f
  | TLegacyAttribute f => LegacyAttributeField.toJSON f
  | TLegacyBelongsTo f => LegacyBelongsToField.toJSON f
  | TLegacyHasMany f => LegacyHasManyField.toJSON f
  end.

Record t : Type := mk {
  name : string;
  type : Null;               (* should always be null *)
  options : Target
}.
Definition kind (_ : t) : Kind := K_alias.
Definition toJSON (f : t) : Value :=
  VObject [("kind", VString (kind_tag (kind f))); ("name", VString (name f));
           ("type", match type f with null => VNull end);
           ("options", targetToJSON (options f))].
End AliasField.

(** ** [FieldSchema] and [ResourceSchema] *)

Inductive FieldSchema : Type :=
| Generic (f : GenericField.t)
| Alias (f : AliasField.t)
| Local (f : LocalField.t)
| Object (f : ObjectField.t)
| SchemaObject (f : SchemaObjectField.t)
| Array (f : ArrayField.t)
| SchemaArray (f : SchemaArrayField.t)
| Derived (f : DerivedField.t)
| Resource (f : ResourceField.t)
| Collection (f : CollectionField.t)
| LegacyAttribute (f : LegacyAttributeField.t)
| LegacyBelongsTo (f : LegacyBelongsToField.t)
| LegacyHasMany (f : LegacyHasManyField.t).

Module Field.

Definition kind (x : FieldSchema) : Kind :=
  match x with
  | Generic f => GenericField.kind f
  | Alias f => AliasField.kind f
  | Local f => LocalField.kind f
  | Object f => ObjectField.kind f
  | SchemaObject f => SchemaObjectField.kind f
  | Array f => ArrayField.kind f
  | SchemaArray f => SchemaArrayField.kind f
  | Derived f => DerivedField.kind f
  | Resource f => ResourceField.kind f
  | Collection f => CollectionField.kind f
  | LegacyAttribute f => LegacyAttributeField.kind f
  | LegacyBelongsTo f => LegacyBelongsToField.kind f
  | LegacyHasMany f => LegacyHasManyField.kind f
  end.

Definition name (x : FieldSchema) : string :=
  match x with
  | Generic f => GenericField.name f
  | Alias f => AliasField.name f
  | Local f => LocalField.name f
  | Object f => ObjectField.name f
  | SchemaObject f => SchemaObjectField.name f
  | Array f => ArrayField.name f
  | SchemaArray f => SchemaArrayField.name f
  | Derived f => DerivedField.name f
  | Resource f => ResourceField.name f
  | Collection f => CollectionField.name f
  | LegacyAttribute f => LegacyAttributeField.name f
  | LegacyBelongsTo f => LegacyBelongsToField.name f
  | LegacyHasMany f => LegacyHasManyField.name f
  end.

Definition toJSON (x : FieldSchema) : Value :=
  match x with
  | Generic f => GenericField.toJSON f
  | Alias f => AliasField.toJSON f
  | Local f => LocalField.toJSON f
  | Object f => ObjectField.toJSON f
  | SchemaObject f => SchemaObjectField.toJSON f
  | Array f => ArrayField.toJSON f
  | SchemaArray f => SchemaArrayField.toJSON f
  | Derived f => DerivedField.toJSON f
  | Resource f => ResourceField.toJSON f
  | Collection f => CollectionField.toJSON f
  | LegacyAttribute f => LegacyAttributeField.toJSON f
  | LegacyBelongsTo f => LegacyBelongsToField.toJSON f
  | LegacyHasMany f => LegacyHasManyField.toJSON f
  end.

(** An alias target read as a field definition of its own. *)
Definition ofTarget (x : AliasField.Target) : FieldSchema :=
  match x with
  | AliasField.TGeneric f => Generic f
  | AliasField.TObject f => Object f
  | AliasField.TSchemaObject f => SchemaObject f
  | AliasField.TArray f => Array f
  | AliasField.TSchemaArray f => SchemaArray f
  | AliasField.TResource f => Resource f
  | AliasField.TCollection f => Collection f
  | AliasField.TLegacyAttribute f => LegacyAttribute f
  | AliasField.TLegacyBelongsTo f => LegacyBelongsTo f
  | AliasField.TLegacyHasMany f => LegacyHasMany f
  end.

(** The field definition an alias stands for; any other field stands for
    itself. *)
Definition target (x : FieldSchema) : FieldSchema :=
  match x with
  | Alias f => ofTarget (AliasField.options f)
  | _ => x
  end.

(** The kinds found in a field definition: its own and, for an alias, the
    kind of the definition nested in [options]. *)
Definition kinds (x : FieldSchema) : list Kind :=
  match x with
  | Alias f => [kind x; AliasField.targetKind (AliasField.options f)]
  | _ => [kind x]
  end.

End Field.

Module ResourceSchema.

(** [IdentityField | HashField | null] *)
Inductive Identity : Type :=
| ById (f : IdentityField.t)
| ByHash (f : HashField.t)
| NoIdentity.

Record t : Type := mk {
  legacy : option bool;
  identity : Identity;
  type : string;
  traits : option (list string);
  fields : list FieldSchema
}.

Definition identityToJSON (i : Identity) : Value :=
  match i with
  | ById f => IdentityField.toJSON f
  | ByHash f => HashField.toJSON f
  | NoIdentity => VNull
  end.

Definition toJSON (s : t) : Value :=
  VObject (optional "legacy" (option_map VBoolean (legacy s))
           ++ [("identity", identityToJSON (identity s));
               ("type", VString (type s))]
           ++ optional "traits"
                (option_map (fun l => VArray (map VString l)) (traits s))
           ++ [("fields", VArray (map Field.toJSON (fields s)))]).

(** The kinds of the field definitions a schema holds in its [identity]
    slot: none for [null]. *)
Definition identityKinds (i : Identity) : list Kind :=
  match i with
  | ById f => [IdentityField.kind f]
  | ByHash f => [HashField.kind f]
  | NoIdentity => []
  end.

(** The kinds of every field definition found in a schema: the [identity]
    slot first, then [fields], aliases with the definition they carry. *)
Definition allKinds (s : t) : list Kind :=
  identityKinds (identity s) ++ flat_map Field.kinds (fields s).

(** The number of identity-bearing field definitions of a schema. *)
Definition identityCount (s : t) : nat :=
  length (filter identity_bearing (allKinds s)).

End ResourceSchema.

(** ** Reading schema documents *)

Module Doc.

(** [doc.kind], when it is a string. *)
Definition kind (doc : Value) : option string :=
  match prop "kind" doc with
  | Some (VPrimitive (PString s)) => Some s
  | _ => None
  end.

(** [doc.options ?? {}] *)
Definition options (doc : Value) : ObjectValue :=
  match prop "options" doc with
  | Some (VObject o) => o
  | _ => []
  end.

Definition isAlias (doc : Value) : bool :=
  match kind doc with
  | Some s => String.eqb s (kind_tag K_alias)
  | None => false
  end.

(** The length of the alias chain that starts at a field document: the
    number of [alias] definitions met when [options] is followed from one
    definition to the definition it carries. *)
Fixpoint aliasDepth (doc : Value) : nat :=
  match doc with
  | VObject props =>
      if isAlias doc then
        S ((fix follow (ps : list (string * Value)) : nat :=
              match ps with
              | [] => 0
              | (k, v) :: rest =>
                  if String.eqb "options" k then aliasDepth v else follow rest
              end) props)
      else 0
  | _ => 0
  end.

(** The documents listed under [fields] of a schema document. *)
Definition fields (schema : Value) : list Value :=
  match prop "fields" schema with
  | Some (VArray l) => l
  | _ => []
  end.

Definition isIdentityBearing (doc : Value) : bool :=
  match kind doc with
  | Some s => String.eqb s (kind_tag K_id) || String.eqb s (kind_tag K_hash)
  | None => false
  end.

End Doc.

(** ** Declared options *)

Module Options.

(** The [options] of a field whose properties the schema types declare.
    The options of [field], [object], [array], [derived] and [attribute] are
    an [ObjectValue] handed as it is to the transform or derivation; no
    property of theirs is declared by the schema types.  The [options] of an
    alias are the field definition it stands for. *)
Definition declared (x : FieldSchema) : option ObjectValue :=
  match x with
  | Generic _ | Object _ | Array _ | Derived _ | LegacyAttribute _ => None
  | Alias f =>
      match AliasField.targetToJSON (AliasField.options f) with
      | VObject o => Some o
      | _ => None
      end
  | Local f =>
      option_map LocalField.Options.toJSON (LocalField.options f)
  | SchemaObject f =>
      option_map SchemaObjectField.Options.toJSON (SchemaObjectField.options f)
  | SchemaArray f =>
      option_map SchemaArrayField.Options.toJSON (SchemaArrayField.options f)
  | Resource f =>
      option_map RelationshipOptions.toJSON (ResourceField.options f)
  | Collection f =>
      option_map RelationshipOptions.toJSON (CollectionField.options f)
  | LegacyBelongsTo f =>
      Some (LegacyRelationshipOptions.toJSON (LegacyBelongsToField.options f))
  | LegacyHasMany f =>
      Some (LegacyRelationshipOptions.toJSON (LegacyHasManyField.options f))
  end.

(** What the cache does with local changes of a legacy relationship when
    its remote data is updated, as documented on [resetOnRemoteUpdate]. *)
Inductive RemoteUpdatePolicy : Type :=
| ClearLocalState        (* "When omitted, ... clear local state of all changes" *)
| CommitLocalChanges.    (* "When set to false, ... intelligently commit" *)

Definition remoteUpdatePolicy (o : LegacyRelationshipOptions.t)
  : RemoteUpdatePolicy :=
  match LegacyRelationshipOptions.resetOnRemoteUpdate o with
  | None => ClearLocalState
  | Some false_ => CommitLocalChanges
  end.

(** [options?.polymorphic] of the four kinds the Polymorphism Resolver
    serves. *)
Definition polymorphic (x : FieldSchema) : option bool :=
  match x with
  | SchemaObject f =>
      match SchemaObjectField.options f with
      | Some o => SchemaObjectField.Options.polymorphic o
      | None => None
      end
  | SchemaArray f =>
      match SchemaArrayField.options f with
      | Some o => SchemaArrayField.Options.polymorphic o
      | None => None
      end
  | Resource f =>
      match ResourceField.options f with
      | Some o => RelationshipOptions.polymorphic o
      | None => None
      end
  | Collection f =>
      match CollectionField.options f with
      | Some o => RelationshipOptions.polymorphic o
      | None => None
      end
  | _ => None
  end.

(** [options?.type] where the schema types declare it: on [schema-object]
    and [schema-array] only.  The options of [resource] and [collection]
    declare [async], [inverse], [as] and [polymorphic], and no [type]. *)
Definition type (x : FieldSchema) : option string :=
  match x with
  | SchemaObject f =>
      match SchemaObjectField.options f with
      | Some o => SchemaObjectField.Options.type o
      | None => None
      end
  | SchemaArray f =>
      match SchemaArrayField.options f with
      | Some o => SchemaArrayField.Options.type o
      | None => None
      end
  | _ => None
  end.

End Options.

(** ** The resolvers *)

Module PolymorphismResolver.

(** Modelled from the spec: the Polymorphism Resolver is not part of the
    sources, which declare only the [polymorphic] and [type] options it
    reads.  The spec's contract: it "reads the discriminator key -
    [fieldOptions.type] if provided, else the literal key "type" - from
    [rawElement]".  [fieldOptions] is the [options] object of the field
    document. *)
Definition discriminatorKey (fieldOptions : ObjectValue) : string :=
  match get "type" fieldOptions with
  | Some (VPrimitive (PString k)) => k
  | _ => "type"
  end.

(** Modelled from the spec: the read of the discriminator from the raw
    element, [rawElement[key]]. *)
Definition readDiscriminator (fieldOptions rawElement : ObjectValue)
  : option Value :=
  get (discriminatorKey fieldOptions) rawElement.

(** Modelled from the spec: the failure of the resolver, from the spec's
    error taxonomy. *)
Inductive Error : Type :=
| MissingPolymorphicDiscriminatorError.

(** Modelled from the spec: [resolveConcreteSchema(fieldOptions, rawElement)]
    "fails with MissingPolymorphicDiscriminatorError if absent or not a
    registered schema"; [registered] stands for the registry's lookup.  The
    check of trait implementors against [as] is left to the registry and is
    not modelled. *)
Definition resolveConcreteSchema (registered : string -> bool)
  (fieldOptions rawElement : ObjectValue) : Error + string :=
  match readDiscriminator fieldOptions rawElement with
  | Some (VPrimitive (PString schemaType)) =>
      if registered schemaType then inr schemaType
      else inl MissingPolymorphicDiscriminatorError
  | _ => inl MissingPolymorphicDiscriminatorError
  end.

(** The four kinds that may be polymorphic and are resolved here. *)
Definition served (k : Kind) : bool :=
  match k with
  | K_schema_object | K_schema_array | K_resource | K_collection => true
  | _ => false
  end.

End PolymorphismResolver.

Module HashResolver.

(** Modelled from the spec: the hash transforms and their registry are not
    part of the sources.  The contract is the one documented on
    [HashField]: the function named by [type] "will only have access to the
    cached data for the record", and receives the field's [options] ("Any
    options that should be provided to the hash function").  It is given
    no record. *)
Definition HashFn : Type := ObjectValue -> option ObjectValue -> string.

Definition Registry : Type := string -> option HashFn.

(** Modelled from the spec: a record as the Field Resolver sees it: the raw
    cache data ([getRaw]), the state of its [@local] fields and the
    memoized values of its [derived] fields. *)
Record RecordHandle : Type := mkRecord {
  cache : ObjectValue;
  locals : ObjectValue;
  derived : ObjectValue
}.

(** Modelled from the spec: the failure of a lookup in the Transform
    Registry. *)
Inductive Error : Type :=
| UnknownTransformError (name : string).

(** Modelled from the spec: [@hash] "invokes the transform named in [type]
    with only the record's raw cache data ... its value is never itself
    stored back".  The record is threaded through to show what resolution
    leaves behind. *)
Definition resolveHash (transforms : Registry) (field : HashField.t)
  (record : RecordHandle) : (Error + string) * RecordHandle :=
  match transforms (HashField.type field) with
  | Some hash =>
      (inr (hash (cache record) (HashField.options field)), record)
  | None => (inl (UnknownTransformError (HashField.type field)), record)
  end.

End HashResolver.

Module IdentityResolver.

Inductive KeyStrategy : Type :=
| ByIdentity               (* '@identity' *)
| ByIndex                  (* '@index' *)
| ByHash                   (* '@hash' *)
| ByField (name : string). (* <field-name> *)

(** [options.key] of a schema-array read as a strategy; "The default is
    '@identity'". *)
Definition keyStrategy (key : option string) : KeyStrategy :=
  match key with
  | None => ByIdentity
  | Some k =>
      if String.eqb k "@identity" then ByIdentity
      else if String.eqb k "@index" then ByIndex
      else if String.eqb k "@hash" then ByHash
      else ByField k
  end.

(** [options?.key] of a schema-array field. *)
Definition configuredKey (f : SchemaArrayField.t) : option string :=
  match SchemaArrayField.options f with
  | Some o => SchemaArrayField.Options.key o
  | None => None
  end.

Definition strategyOf (f : SchemaArrayField.t) : KeyStrategy :=
  keyStrategy (configuredKey f).

(** The three values of [key] that are not field names. *)
Definition reserved : list string := ["@identity"; "@index"; "@hash"].

(** Modelled from the spec: a raw element of the cached array: an object
    with an identity of its own ([ref], compared by reference equality)
    and its content. *)
Record Element : Type := mkElement {
  ref : nat;
  data : ObjectValue
}.

(** Modelled from the spec: the key values of the four strategies; [None]
    under [KField] stands for [undefined]. *)
Inductive KeyValue : Type :=
| KIdentity (ref : nat)
| KIndex (index : nat)
| KHash (hash : string)
| KField (raw : option Value).

(** Modelled from the spec: the failures of [computeKey], from the spec's
    error taxonomy. *)
Inductive Error : Type :=
| InvalidIdentityFieldError (name : string)
| UnknownTransformError (name : string).

(** Modelled from the spec: what [computeKey] gives: a key, a failure, or,
    where neither the spec nor the source tells, nothing. *)
Inductive Outcome : Type :=
| Key (k : KeyValue)
| Failure (e : Error)
| Unspecified.

(** Is [name] a [field]-kind field of the schema? *)
Definition isGenericField (schema : ResourceSchema.t) (name : string) : bool :=
  existsb
    (fun x => match x with
              | Generic f => String.eqb (GenericField.name f) name
              | _ => false
              end)
    (ResourceSchema.fields schema).

(** Modelled from the spec: [computeKey(keyStrategy, element, index,
    priorIdentityMap)] of the Identity Resolver, which is not part of the
    sources; [schema] is the object schema of the elements and [transforms]
    the registry of hash functions.  A schema-array "can declare its key
    value to be [@hash] if a schema-object has such a field": for a schema
    without one neither the spec nor the source gives an outcome, and the
    model gives none. *)
Definition computeKey (transforms : HashResolver.Registry)
  (schema : ResourceSchema.t) (strategy : KeyStrategy) (element : Element)
  (index : nat) (priorIdentityMap : list (KeyValue * nat)) : Outcome :=
  match strategy with
  | ByIdentity => Key (KIdentity (ref element))
  | ByIndex => Key (KIndex index)
  | ByHash =>
      match ResourceSchema.identity schema with
      | ResourceSchema.ByHash field =>
          match transforms (HashField.type field) with
          | Some hash =>
              Key (KHash (hash (data element) (HashField.options field)))
          | None => Failure (UnknownTransformError (HashField.type field))
          end
      | _ => Unspecified
      end
  | ByField name =>
      if isGenericField schema name
      then Key (KField (get name (data element)))
      else Failure (InvalidIdentityFieldError name)
  end.

(** Modelled from the spec: the key of an element of the array held by a
    schema-array field: [computeKey] under the strategy the field
    configures. *)
Definition keyOf (transforms : HashResolver.Registry)
  (schema : ResourceSchema.t) (f : SchemaArrayField.t) (element : Element)
  (index : nat) (priorIdentityMap : list (KeyValue * nat)) : Outcome :=
  computeKey transforms schema (strategyOf f) element index priorIdentityMap.

(** The strategy a key value comes from. *)
Inductive Origin : Type := FromIdentity | FromIndex | FromHash | FromField.

Definition originOfKey (k : KeyValue) : Origin :=
  match k with
  | KIdentity _ => FromIdentity
  | KIndex _ => FromIndex
  | KHash _ => FromHash
  | KField _ => FromField
  end.

Definition originOfStrategy (s : KeyStrategy) : Origin :=
  match s with
  | ByIdentity => FromIdentity
  | ByIndex => FromIndex
  | ByHash => FromHash
  | ByField _ => FromField
  end.

End IdentityResolver.

(** ** Sample schemas *)

Module Sample.

Definition nameField : GenericField.t :=
  GenericField.mk "name" None None.

Definition idField : IdentityField.t := IdentityField.mk "id".

Definition hashField : HashField.t := HashField.mk None "sha" None.

Definition flagField : LocalField.t :=
  LocalField.mk "isDestroyed" None
    (Some (LocalField.Options.mk (Some (PBoolean false)))).

Definition metaField : ObjectField.t := ObjectField.mk "meta" None None.

Definition addressField : SchemaObjectField.t :=
  SchemaObjectField.mk "address" "$field:Address"
    (Some (SchemaObjectField.Options.mk (Some true) (Some "kind"))).

Definition plainAddressField : SchemaObjectField.t :=
  SchemaObjectField.mk "address" "$field:Address"
    (Some (SchemaObjectField.Options.mk (Some true) None)).

Definition tagsField : ArrayField.t := ArrayField.mk "tags" None None.

Definition addressesField : SchemaArrayField.t :=
  SchemaArrayField.mk "addresses" "$field:Address" None.

Definition indexedAddressesField : SchemaArrayField.t :=
  SchemaArrayField.mk "addresses" "$field:Address"
    (Some (SchemaArrayField.Options.mk (Some "@index") None None)).

Definition fullNameField : DerivedField.t :=
  DerivedField.mk "fullName" "concat" None.

Definition ownerOptions : RelationshipOptions.t :=
  RelationshipOptions.mk (Some false) (Some None) None (Some true).

Definition ownerField : ResourceField.t :=
  ResourceField.mk "owner" "user" (Some ownerOptions).

Definition petsField : CollectionField.t :=
  CollectionField.mk "pets" "pet" (Some ownerOptions).

Definition ageField : LegacyAttributeField.t :=
  LegacyAttributeField.mk "age" (Some None) None.

Definition resetOmitted : LegacyRelationshipOptions.t :=
  LegacyRelationshipOptions.mk false None None None None.

Definition resetFalse : LegacyRelationshipOptions.t :=
  LegacyRelationshipOptions.mk false None None None (Some false_).

Definition bestFriendField : LegacyBelongsToField.t :=
  LegacyBelongsToField.mk "bestFriend" "user" resetFalse.

Definition friendsField : LegacyHasManyField.t :=
  LegacyHasManyField.mk "friends" "user" resetFalse.

(** [{ kind: 'alias', name: 'displayName', type: null,
       options: { kind: 'field', name: 'name' } }] *)
Definition displayNameField : AliasField.t :=
  AliasField.mk "displayName" null (AliasField.TGeneric nameField).

(** One field definition of each member of [FieldSchema]. *)
Definition ofKind (k : Kind) : option FieldSchema :=
  match k with
  | K_field => Some (Generic nameField)
  | K_alias => Some (Alias displayNameField)
  | K_local => Some (Local flagField)
  | K_object => Some (Object metaField)
  | K_schema_object => Some (SchemaObject addressField)
  | K_array => Some (Array tagsField)
  | K_schema_array => Some (SchemaArray addressesField)
  | K_derived => Some (Derived fullNameField)
  | K_resource => Some (Resource ownerField)
  | K_collection => Some (Collection petsField)
  | K_attribute => Some (LegacyAttribute ageField)
  | K_belongsTo => Some (LegacyBelongsTo bestFriendField)
  | K_hasMany => Some (LegacyHasMany friendsField)
  | K_id | K_hash => None
  end.

(** One alias target of each member of the [options] union. *)
Definition targetOfKind (k : Kind) : option AliasField.Target :=
  match k with
  | K_field => Some (AliasField.TGeneric nameField)
  | K_object => Some (AliasField.TObject metaField)
  | K_schema_object => Some (AliasField.TSchemaObject addressField)
  | K_array => Some (AliasField.TArray tagsField)
  | K_schema_array => Some (AliasField.TSchemaArray addressesField)
  | K_resource => Some (AliasField.TResource ownerField)
  | K_collection => Some (AliasField.TCollection petsField)
  | K_attribute => Some (AliasField.TLegacyAttribute ageField)
  | K_belongsTo => Some (AliasField.TLegacyBelongsTo bestFriendField)
  | K_hasMany => Some (AliasField.TLegacyHasMany friendsField)
  | K_alias | K_id | K_hash | K_local | K_derived => None
  end.

(** The resource schema of the spec's end-to-end scenario. *)
Definition user : ResourceSchema.t :=
  ResourceSchema.mk None (ResourceSchema.ById idField) "user" None
    [Generic nameField; Alias displayNameField].

(** An object schema identified by a hash. *)
Definition address : ResourceSchema.t :=
  ResourceSchema.mk None (ResourceSchema.ByHash hashField) "$field:Address"
    None [Generic (GenericField.mk "street" None None)].

End Sample.

(** Sample inputs of the resolvers. *)
Module Fixture.

(** A hash function that reads the street out of the cached data. *)
Definition streetHash : HashResolver.HashFn :=
  fun data _ =>
    match get "street" data with
    | Some (VPrimitive (PString s)) => s
    | _ => "?"
    end.

Definition transforms : HashResolver.Registry :=
  fun name => if String.eqb name "sha" then Some streetHash else None.

Definition home : ObjectValue :=
  [("kind", VString "$field:Home"); ("type", VString "$field:Address");
   ("street", VString "1 Main St")].

(** Two records over the same cached data whose local and derived state
    differ. *)
Definition fresh : HashResolver.RecordHandle :=
  HashResolver.mkRecord home [] [].

Definition edited : HashResolver.RecordHandle :=
  HashResolver.mkRecord home
    [("isDestroyed", VBoolean true)] [("label", VString "Home")].

Definition element : IdentityResolver.Element :=
  IdentityResolver.mkElement 7 home.

End Fixture.

(** The kinds of the members of [FieldSchema], in the order of the union. *)
Definition field_kinds : list Kind :=
  [K_field; K_alias; K_local; K_object; K_schema_object; K_array;
   K_schema_array; K_derived; K_resource; K_collection; K_attribute;
   K_belongsTo; K_hasMany].

(** The kinds of the members of the [options] union of an alias. *)
Definition alias_target_kinds : list Kind :=
  [K_field; K_object; K_schema_object; K_array; K_schema_array; K_resource;
   K_collection; K_attribute; K_belongsTo; K_hasMany].

(** The four kinds the documentation of [AliasField] rules out. *)
Definition alias_excluded_kinds : list Kind :=
  [K_hash; K_id; K_local; K_derived].

(** ** The legacy unions *)

(** [LegacyAttributeField | LegacyBelongsToField | LegacyHasManyField] *)
Inductive LegacyFieldSchema : Type :=
| LFAttribute (f : LegacyAttributeField.t)
| LFBelongsTo (f : LegacyBelongsToField.t)
| LFHasMany (f : LegacyHasManyField.t).

(** [LegacyBelongsToField | LegacyHasManyField] *)
Inductive LegacyRelationshipSchema : Type :=
| LRBelongsTo (f : LegacyBelongsToField.t)
| LRHasMany (f : LegacyHasManyField.t).

Module Legacy.

(** A legacy field read at the wider types it is assignable to. *)
Definition toField (x : LegacyFieldSchema) : FieldSchema :=
  match x with
  | LFAttribute f => LegacyAttribute f
  | LFBelongsTo f => LegacyBelongsTo f
  | LFHasMany f => LegacyHasMany f
  end.

Definition toTarget (x : LegacyFieldSchema) : AliasField.Target :=
  match x with
  | LFAttribute f => AliasField.TLegacyAttribute f
  | LFBelongsTo f => AliasField.TLegacyBelongsTo f
  | LFHasMany f => AliasField.TLegacyHasMany f
  end.

Definition ofRelationship (x : LegacyRelationshipSchema) : LegacyFieldSchema :=
  match x with
  | LRBelongsTo f => LFBelongsTo f
  | LRHasMany f => LFHasMany f
  end.

Definition relationshipOptions (x : LegacyRelationshipSchema)
  : LegacyRelationshipOptions.t :=
  match x with
  | LRBelongsTo f => LegacyBelongsToField.options f
  | LRHasMany f => LegacyHasManyField.options f
  end.

Definition kinds : list Kind := [K_attribute; K_belongsTo; K_hasMany].

Definition relationshipKinds : list Kind := [K_belongsTo; K_hasMany].

End Legacy.

(** ** The shape of the documents *)

Module Shape.

(** The names of the properties of an object. *)
Definition names (o : ObjectValue) : list string := map fst o.

(** The kinds whose [type] is declared without [?]: a string is always
    there. *)
Definition typeRequired : list Kind :=
  [K_schema_object; K_schema_array; K_derived; K_resource; K_collection;
   K_belongsTo; K_hasMany].

(** The kinds whose [options] are declared without [?]. *)
Definition optionsRequired : list Kind := [K_alias; K_belongsTo; K_hasMany].

(** The kinds that may not be carried by an alias though they are members
    of [FieldSchema]. *)
Definition notAliasable : list Kind := [K_alias; K_local; K_derived].

(** The kinds whose declared options have a property of the given name. *)
Definition declaringKinds (key : string) : list Kind :=
  if String.eqb key "defaultValue" then [K_local]
  else if String.eqb key "key" then [K_schema_array]
  else if String.eqb key "type" then [K_schema_object; K_schema_array]
  else if String.eqb key "polymorphic" then
    [K_schema_object; K_schema_array; K_resource; K_collection;
     K_belongsTo; K_hasMany]
  else if String.eqb key "async" || String.eqb key "inverse"
          || String.eqb key "as" then
    [K_resource; K_collection; K_belongsTo; K_hasMany]
  else if String.eqb key "resetOnRemoteUpdate" then [K_belongsTo; K_hasMany]
  else [].

End Shape.

(** Field definitions that leave every optional property out, and field
    definitions that set every one. *)
Module Populated.

Definition bare (k : Kind) : option FieldSchema :=
  match k with
  | K_field => Some (Generic (GenericField.mk "f" None None))
  | K_alias => Some (Alias Sample.displayNameField)
  | K_local => Some (Local (LocalField.mk "f" None None))
  | K_object => Some (Object (ObjectField.mk "f" None None))
  | K_schema_object => Some (SchemaObject (SchemaObjectField.mk "f" "t" None))
  | K_array => Some (Array (ArrayField.mk "f" None None))
  | K_schema_array => Some (SchemaArray (SchemaArrayField.mk "f" "t" None))
  | K_derived => Some (Derived (DerivedField.mk "f" "t" None))
  | K_resource => Some (Resource (ResourceField.mk "f" "t" None))
  | K_collection => Some (Collection (CollectionField.mk "f" "t" None))
  | K_attribute => Some (LegacyAttribute (LegacyAttributeField.mk "f" None None))
  | K_belongsTo =>
      Some (LegacyBelongsTo (LegacyBelongsToField.mk "f" "t" Sample.resetOmitted))
  | K_hasMany =>
      Some (LegacyHasMany (LegacyHasManyField.mk "f" "t" Sample.resetOmitted))
  | K_id | K_hash => None
  end.

Definition relationship : RelationshipOptions.t :=
  RelationshipOptions.mk (Some true) (Some (Some "owner")) (Some "pet")
    (Some true).

Definition legacyRelationship : LegacyRelationshipOptions.t :=
  LegacyRelationshipOptions.mk true (Some "owner") (Some "pet") (Some true)
    (Some false_).

Definition full (k : Kind) : option FieldSchema :=
  match k with
  | K_local =>
      Some (Local (LocalField.mk "f" (Some "t")
                     (Some (LocalField.Options.mk (Some PNull)))))
  | K_schema_object =>
      Some (SchemaObject
              (SchemaObjectField.mk "f" "t"
                 (Some (SchemaObjectField.Options.mk (Some true) (Some "kind")))))
  | K_schema_array =>
      Some (SchemaArray
              (SchemaArrayField.mk "f" "t"
                 (Some (SchemaArrayField.Options.mk (Some "@hash") (Some true)
                          (Some "kind")))))
  | K_resource => Some (Resource (ResourceField.mk "f" "t" (Some relationship)))
  | K_collection =>
      Some (Collection (CollectionField.mk "f" "t" (Some relationship)))
  | K_belongsTo =>
      Some (LegacyBelongsTo (LegacyBelongsToField.mk "f" "t" legacyRelationship))
  | K_hasMany =>
      Some (LegacyHasMany (LegacyHasManyField.mk "f" "t" legacyRelationship))
  | _ => None
  end.

End Populated.

(** * Properties *)

(** ** Kinds and documents *)

Lemma Kind_eqb_eq (a b : Kind) : Kind_eqb a b = true <-> a = b.
Proof.
  split.
  - destruct a, b; simpl; intros H; try reflexivity; discriminate H.
  - intros ->. destruct b; reflexivity.
Qed.

Lemma kind_tag_inj (a b : Kind) : kind_tag a = kind_tag b -> a = b.
Proof.
  destruct a, b; simpl; intros H; try reflexivity; discriminate H.
Qed.

(** Every alias target is a field definition of the same kind, name and
    document. *)
Lemma ofTarget_kind (x : AliasField.Target) :
  Field.kind (Field.ofTarget x) = AliasField.targetKind x.
Proof. destruct x; reflexivity. Qed.

Lemma ofTarget_toJSON (x : AliasField.Target) :
  Field.toJSON (Field.ofTarget x) = AliasField.targetToJSON x.
Proof. destruct x; reflexivity. Qed.

Lemma targetKind_listed (x : AliasField.Target) :
  In (AliasField.targetKind x) alias_target_kinds.
Proof. destruct x; simpl; tauto. Qed.

Lemma targetOfKind_kind (k : Kind) (x : AliasField.Target) :
  Sample.targetOfKind k = Some x -> AliasField.targetKind x = k.
Proof. destruct k; simpl; intros H; inversion H; reflexivity. Qed.

Lemma ofKind_kind (k : Kind) (x : FieldSchema) :
  Sample.ofKind k = Some x -> Field.kind x = k.
Proof. destruct k; simpl; intros H; inversion H; reflexivity. Qed.

Lemma kind_listed (x : FieldSchema) : In (Field.kind x) field_kinds.
Proof. destruct x; simpl; tauto. Qed.

(** The fifteen kinds are the thirteen of [FieldSchema] and the two
    identity-bearing ones. *)
Lemma all_kinds_split (k : Kind) :
  In k all_kinds
  /\ (In k field_kinds <-> identity_bearing k = false).
Proof.
  split; [destruct k; simpl; tauto|].
  split.
  - destruct k; simpl; intros H; try reflexivity;
      exfalso; intuition discriminate.
  - destruct k; simpl; intros H; try discriminate H; tauto.
Qed.

(** The document of a field definition carries the tag of its kind under
    [kind] and its name under [name]. *)
Lemma toJSON_kind (x : FieldSchema) :
  Doc.kind (Field.toJSON x) = Some (kind_tag (Field.kind x)).
Proof. destruct x; reflexivity. Qed.

Lemma toJSON_name (x : FieldSchema) :
  prop "name" (Field.toJSON x) = Some (VString (Field.name x)).
Proof. destruct x; reflexivity. Qed.

Lemma target_toJSON_kind (x : AliasField.Target) :
  Doc.kind (AliasField.targetToJSON x)
  = Some (kind_tag (AliasField.targetKind x)).
Proof. rewrite <- ofTarget_toJSON, <- ofTarget_kind. apply toJSON_kind. Qed.

Lemma target_not_alias (x : AliasField.Target) :
  AliasField.targetKind x <> K_alias.
Proof. destruct x; discriminate. Qed.

Lemma target_isAlias (x : AliasField.Target) :
  Doc.isAlias (AliasField.targetToJSON x) = false.
Proof.
  unfold Doc.isAlias. rewrite target_toJSON_kind.
  destruct x; reflexivity.
Qed.

Lemma kinds_not_identity (x : FieldSchema) :
  filter identity_bearing (Field.kinds x) = [].
Proof.
  destruct x as [f|f|f|f|f|f|f|f|f|f|f|f|f]; try reflexivity.
  simpl. destruct (AliasField.options f); reflexivity.
Qed.

Lemma fields_not_identity (l : list FieldSchema) :
  filter identity_bearing (flat_map Field.kinds l) = [].
Proof.
  induction l as [|x l IH]; simpl.
  - reflexivity.
  - rewrite filter_app, kinds_not_identity, IH. reflexivity.
Qed.

Lemma field_doc_not_identity (x : FieldSchema) :
  Doc.isIdentityBearing (Field.toJSON x) = false.
Proof.
  unfold Doc.isIdentityBearing. rewrite toJSON_kind.
  destruct x; reflexivity.
Qed.

Lemma schema_doc_fields (s : ResourceSchema.t) :
  Doc.fields (ResourceSchema.toJSON s)
  = map Field.toJSON (ResourceSchema.fields s).
Proof.
  unfold Doc.fields, ResourceSchema.toJSON.
  destruct s as [legacy identity type traits fields]; simpl.
  destruct legacy, traits; reflexivity.
Qed.

Lemma aliasDepth_not_alias (doc : Value) :
  Doc.isAlias doc = false -> Doc.aliasDepth doc = 0.
Proof.
  destruct doc as [p|l|props]; simpl; intros H; try reflexivity.
  rewrite H. reflexivity.
Qed.

Lemma aliasDepth_alias (a : AliasField.t) :
  Doc.aliasDepth (AliasField.toJSON a) = 1.
Proof.
  destruct a as [n [] target].
  change (S (Doc.aliasDepth (AliasField.targetToJSON target)) = 1).
  rewrite aliasDepth_not_alias by apply target_isAlias.
  reflexivity.
Qed.

Lemma aliasDepth_field (x : FieldSchema) :
  Doc.aliasDepth (Field.toJSON x)
  = if Kind_eqb (Field.kind x) K_alias then 1 else 0.
Proof.
  destruct x as [f|f|f|f|f|f|f|f|f|f|f|f|f];
    try (apply aliasDepth_not_alias; unfold Doc.isAlias;
         rewrite toJSON_kind; reflexivity).
  apply aliasDepth_alias.
Qed.

(** ** The identity slot *)

(** C1: a schema holds its identity in the single [identity] slot, no
    definition of kind [@id] or [@hash] is found among its [fields] (neither
    as a field nor as the target of an alias, neither in the typed schema nor
    in its document), and so the number of identity-bearing field
    definitions of any schema is zero (for [null]) or one. *)
Theorem schema_identity_at_most_one (s : ResourceSchema.t) :
  filter identity_bearing (flat_map Field.kinds (ResourceSchema.fields s)) = []
  /\ forallb (fun doc => negb (Doc.isIdentityBearing doc))
       (Doc.fields (ResourceSchema.toJSON s)) = true
  /\ ResourceSchema.identityCount s
     = match ResourceSchema.identity s with
       | ResourceSchema.NoIdentity => 0
       | _ => 1
       end
  /\ ResourceSchema.identityCount s <= 1.
Proof.
  assert (Hcount : ResourceSchema.identityCount s
                   = match ResourceSchema.identity s with
                     | ResourceSchema.NoIdentity => 0
                     | _ => 1
                     end).
  { unfold ResourceSchema.identityCount, ResourceSchema.allKinds.
    rewrite filter_app, fields_not_identity, app_nil_r.
    destruct (ResourceSchema.identity s); reflexivity. }
  split; [apply fields_not_identity|].
  split.
  - rewrite schema_doc_fields. apply forallb_forall.
    intros doc Hin. apply in_map_iff in Hin.
    destruct Hin as [x [<- _]].
    rewrite field_doc_not_identity. reflexivity.
  - split; [exact Hcount|].
    rewrite Hcount. destruct (ResourceSchema.identity s); lia.
Qed.

(** ** Alias targets *)

(** C2, as the claim states it, fails: [alias] is none of the four kinds
    [@hash], [@id], [@local] and [derived], and yet no member of the
    [options] union of an alias has kind [alias]. *)
Lemma alias_is_no_alias_target :
  ~ (forall k : Kind,
       ~ In k alias_excluded_kinds ->
       exists t : AliasField.Target, AliasField.targetKind t = k).
Proof.
  intros H.
  destruct (H K_alias) as [t Ht].
  - simpl. intros [E|[E|[E|[E|[]]]]]; discriminate E.
  - exact (target_not_alias t Ht).
Qed.

(** C2, amended: the kinds of the definitions an alias may carry in
    [options] are exactly the kinds other than [@hash], [@id], [@local],
    [derived] and [alias]: each of the ten remaining kinds is the kind of
    some target, and no target has one of these five kinds. *)
Theorem alias_target_kinds_exact (k : Kind) :
  (exists t : AliasField.Target, AliasField.targetKind t = k)
  <-> ~ In k (K_alias :: alias_excluded_kinds).
Proof.
  split.
  - intros [t <-]. destruct t; simpl;
      intros [E|[E|[E|[E|[E|[]]]]]]; discriminate E.
  - intros H.
    destruct (Sample.targetOfKind k) as [t|] eqn:E.
    + exists t. now apply targetOfKind_kind.
    + exfalso. apply H. destruct k; simpl in *; try discriminate E; tauto.
Qed.

(** C8: the [type] of every alias is [null], in the typed definition and in
    its document; the definition it stands for, with any transform of its
    own, is the value of [options]. *)
Theorem alias_type_null (a : AliasField.t) :
  AliasField.type a = null
  /\ prop "type" (AliasField.toJSON a) = Some VNull
  /\ prop "options" (AliasField.toJSON a)
     = Some (AliasField.targetToJSON (AliasField.options a)).
Proof.
  destruct a as [n [] target]. repeat split.
Qed.

(** C9: the definition an alias carries is never an alias: its kind is not
    [alias], its document is the document of no alias (so no alias can carry
    itself, or an alias that carries it back), every alias chain has length
    exactly one, and the target of an alias has no further target to
    follow. *)
Theorem alias_chain_depth_one (a : AliasField.t) :
  AliasField.targetKind (AliasField.options a) <> K_alias
  /\ (forall b : AliasField.t,
        AliasField.targetToJSON (AliasField.options a) <> AliasField.toJSON b)
  /\ Doc.aliasDepth (AliasField.toJSON a) = 1
  /\ Doc.aliasDepth (AliasField.targetToJSON (AliasField.options a)) = 0
  /\ Field.target (Field.target (Alias a)) = Field.target (Alias a).
Proof.
  split; [apply target_not_alias|].
  split.
  { intros b E.
    pose proof (target_isAlias (AliasField.options a)) as H.
    rewrite E in H. destruct b as [n [] t]. discriminate H. }
  split; [apply aliasDepth_alias|].
  split; [apply aliasDepth_not_alias, target_isAlias|].
  simpl. destruct (AliasField.options a); reflexivity.
Qed.

(** ** The [FieldSchema] union *)

(** C3, as the claim states it, fails: no member of [FieldSchema] has kind
    [@id] or [@hash], the document of an identity field is the document of
    no [FieldSchema], and the [name] of a hash field may be [null] rather
    than a string. *)
Lemma identity_kinds_not_in_union :
  (~ exists x : FieldSchema, Field.kind x = K_id)
  /\ (~ exists x : FieldSchema, Field.kind x = K_hash)
  /\ (forall x : FieldSchema,
        Field.toJSON x <> IdentityField.toJSON Sample.idField)
  /\ prop "name" (HashField.toJSON Sample.hashField) = Some VNull.
Proof.
  split; [intros [x H]; destruct x; discriminate H|].
  split; [intros [x H]; destruct x; discriminate H|].
  split; [|reflexivity].
  intros x E.
  pose proof (toJSON_kind x) as H. rewrite E in H.
  destruct x; discriminate H.
Qed.

(** C3, amended: [FieldSchema] is a closed union over exactly thirteen
    kinds: [field], [alias], [@local], [object], [schema-object], [array],
    [schema-array], [derived], [resource], [collection], [attribute],
    [belongsTo] and [hasMany] (the three legacy kinds counted one by one,
    [@id] and [@hash] left to the [identity] slot); every member carries
    its [kind] tag and a [name] that is a string. *)
Theorem field_schema_union :
  length field_kinds = 13
  /\ NoDup field_kinds
  /\ (forall k : Kind,
        (exists x : FieldSchema, Field.kind x = k) <-> In k field_kinds)
  /\ (forall x : FieldSchema,
        Doc.kind (Field.toJSON x) = Some (kind_tag (Field.kind x))
        /\ prop "name" (Field.toJSON x) = Some (VString (Field.name x))).
Proof.
  split; [reflexivity|].
  split.
  { unfold field_kinds.
    repeat (constructor;
            [simpl; intuition discriminate|]).
    constructor. }
  split.
  - intros k. split.
    + intros [x <-]. apply kind_listed.
    + intros H.
      destruct (Sample.ofKind k) as [x|] eqn:E.
      * exists x. now apply ofKind_kind.
      * exfalso. destruct k; simpl in *; try discriminate E;
          intuition discriminate.
  - intros x. split; [apply toJSON_kind | apply toJSON_name].
Qed.

(** ** [resetOnRemoteUpdate] *)

Lemma legacy_options_reset (o : LegacyRelationshipOptions.t) :
  get "resetOnRemoteUpdate" (LegacyRelationshipOptions.toJSON o)
  = option_map (fun _ => VBoolean false)
      (LegacyRelationshipOptions.resetOnRemoteUpdate o).
Proof.
  destruct o as [a i [s|] [p|] [[]|]]; reflexivity.
Qed.

Lemma relationship_options_no_reset (o : RelationshipOptions.t) :
  get "resetOnRemoteUpdate" (RelationshipOptions.toJSON o) = None.
Proof.
  destruct o as [[a|] [i|] [s|] [p|]]; reflexivity.
Qed.

Lemma target_doc_no_reset (x : AliasField.Target) (o : ObjectValue) :
  AliasField.targetToJSON x = VObject o ->
  get "resetOnRemoteUpdate" o = None.
Proof.
  destruct x as [f|f|f|f|f|f|f|f|f|f]; destruct f as [n t opts];
    simpl; intros H; inversion H; subst o; clear H;
    try (destruct t); try (destruct opts); reflexivity.
Qed.

Lemma has_get (k : string) (o : ObjectValue) :
  has k o = true <-> get k o <> None.
Proof.
  unfold has. destruct (get k o); split; intros H;
    try reflexivity; try discriminate; try congruence.
Qed.

Lemma declared_reset_legacy (x : FieldSchema) (o : ObjectValue) :
  Options.declared x = Some o ->
  has "resetOnRemoteUpdate" o = true ->
  Field.kind x = K_belongsTo \/ Field.kind x = K_hasMany.
Proof.
  intros Hd Hh. apply has_get in Hh.
  destruct x as [f|f|f|f|f|f|f|f|f|f|f|f|f]; simpl in Hd;
    try discriminate Hd; try (left; reflexivity); try (right; reflexivity);
    exfalso; apply Hh.
  - destruct (AliasField.targetToJSON (AliasField.options f)) eqn:E;
      try discriminate Hd.
    inversion Hd; subst o. eapply target_doc_no_reset; exact E.
  - destruct (LocalField.options f) as [[[d|]]|]; inversion Hd; reflexivity.
  - destruct (SchemaObjectField.options f) as [[[p|] [t|]]|];
      inversion Hd; reflexivity.
  - destruct (SchemaArrayField.options f) as [[[k|] [p|] [t|]]|];
      inversion Hd; reflexivity.
  - destruct (ResourceField.options f) as [r|]; inversion Hd.
    apply relationship_options_no_reset.
  - destruct (CollectionField.options f) as [r|]; inversion Hd.
    apply relationship_options_no_reset.
Qed.

Lemma resource_doc_options (f : ResourceField.t) :
  Doc.options (ResourceField.toJSON f)
  = match ResourceField.options f with
    | Some o => RelationshipOptions.toJSON o
    | None => []
    end.
Proof. destruct f as [n t [o|]]; reflexivity. Qed.

Lemma collection_doc_options (f : CollectionField.t) :
  Doc.options (CollectionField.toJSON f)
  = match CollectionField.options f with
    | Some o => RelationshipOptions.toJSON o
    | None => []
    end.
Proof. destruct f as [n t [o|]]; reflexivity. Qed.

Lemma belongsTo_doc_options (f : LegacyBelongsToField.t) :
  Doc.options (LegacyBelongsToField.toJSON f)
  = LegacyRelationshipOptions.toJSON (LegacyBelongsToField.options f).
Proof. destruct f as [n t o]; reflexivity. Qed.

Lemma hasMany_doc_options (f : LegacyHasManyField.t) :
  Doc.options (LegacyHasManyField.toJSON f)
  = LegacyRelationshipOptions.toJSON (LegacyHasManyField.options f).
Proof. destruct f as [n t o]; reflexivity. Qed.

(** C7: [resetOnRemoteUpdate] is an option of the legacy relationship kinds
    only.  Among the fields whose options the schema types declare, one
    that has the property is a [belongsTo] or a [hasMany]; the options of
    no [resource] and of no [collection] field have it; the options of a
    [belongsTo] or [hasMany] field have it exactly when the field sets
    it. *)
Theorem reset_only_on_legacy_relationships :
  (forall (x : FieldSchema) (o : ObjectValue),
      Options.declared x = Some o ->
      has "resetOnRemoteUpdate" o = true ->
      Field.kind x = K_belongsTo \/ Field.kind x = K_hasMany)
  /\ (forall f : ResourceField.t,
        has "resetOnRemoteUpdate" (Doc.options (ResourceField.toJSON f))
        = false)
  /\ (forall f : CollectionField.t,
        has "resetOnRemoteUpdate" (Doc.options (CollectionField.toJSON f))
        = false)
  /\ (forall f : LegacyBelongsToField.t,
        has "resetOnRemoteUpdate" (Doc.options (LegacyBelongsToField.toJSON f))
        = match LegacyRelationshipOptions.resetOnRemoteUpdate
                  (LegacyBelongsToField.options f) with
          | Some _ => true
          | None => false
          end)
  /\ (forall f : LegacyHasManyField.t,
        has "resetOnRemoteUpdate" (Doc.options (LegacyHasManyField.toJSON f))
        = match LegacyRelationshipOptions.resetOnRemoteUpdate
                  (LegacyHasManyField.options f) with
          | Some _ => true
          | None => false
          end)
  /\ has "resetOnRemoteUpdate"
       (Doc.options (LegacyBelongsToField.toJSON Sample.bestFriendField))
     = true
  /\ has "resetOnRemoteUpdate"
       (Doc.options (LegacyHasManyField.toJSON Sample.friendsField))
     = true.
Proof.
  split; [exact declared_reset_legacy|].
  split.
  { intros f. rewrite resource_doc_options. unfold has.
    destruct (ResourceField.options f) as [o|];
      [rewrite relationship_options_no_reset|]; reflexivity. }
  split.
  { intros f. rewrite collection_doc_options. unfold has.
    destruct (CollectionField.options f) as [o|];
      [rewrite relationship_options_no_reset|]; reflexivity. }
  split.
  { intros f. rewrite belongsTo_doc_options. unfold has.
    rewrite legacy_options_reset.
    destruct (LegacyRelationshipOptions.resetOnRemoteUpdate _); reflexivity. }
  split.
  { intros f. rewrite hasMany_doc_options. unfold has.
    rewrite legacy_options_reset.
    destruct (LegacyRelationshipOptions.resetOnRemoteUpdate _); reflexivity. }
  split; reflexivity.
Qed.

(** C10: on a [belongsTo] and on a [hasMany] field, [resetOnRemoteUpdate] is
    either omitted, and local state is cleared on a remote update, or
    [false], and local changes are committed; it is never [true]. *)
Theorem reset_omitted_or_false :
  (forall o : LegacyRelationshipOptions.t,
      (LegacyRelationshipOptions.resetOnRemoteUpdate o = None
       /\ get "resetOnRemoteUpdate" (LegacyRelationshipOptions.toJSON o) = None
       /\ Options.remoteUpdatePolicy o = Options.ClearLocalState)
      \/ (LegacyRelationshipOptions.resetOnRemoteUpdate o = Some false_
          /\ get "resetOnRemoteUpdate" (LegacyRelationshipOptions.toJSON o)
             = Some (VBoolean false)
          /\ Options.remoteUpdatePolicy o = Options.CommitLocalChanges))
  /\ (forall f : LegacyBelongsToField.t,
        get "resetOnRemoteUpdate" (Doc.options (LegacyBelongsToField.toJSON f))
        <> Some (VBoolean true))
  /\ (forall f : LegacyHasManyField.t,
        get "resetOnRemoteUpdate" (Doc.options (LegacyHasManyField.toJSON f))
        <> Some (VBoolean true)).
Proof.
  split.
  { intros o. unfold Options.remoteUpdatePolicy.
    rewrite legacy_options_reset.
    destruct (LegacyRelationshipOptions.resetOnRemoteUpdate o) as [[]|];
      [right | left]; repeat split. }
  split; intros f;
    [rewrite belongsTo_doc_options | rewrite hasMany_doc_options];
    rewrite legacy_options_reset;
    destruct (LegacyRelationshipOptions.resetOnRemoteUpdate _);
    discriminate.
Qed.

(** ** The discriminator of polymorphic fields *)

Lemma discriminatorKey_options (x : FieldSchema) :
  PolymorphismResolver.served (Field.kind x) = true ->
  PolymorphismResolver.discriminatorKey (Doc.options (Field.toJSON x))
  = match Options.type x with Some key => key | None => "type" end.
Proof.
  destruct x as [f|f|f|f|f|f|f|f|f|f|f|f|f]; simpl; intros H;
    try discriminate H; clear H.
  - destruct f as [n t [[[p|] [k|]]|]]; reflexivity.
  - destruct f as [n t [[[k|] [p|] [ty|]]|]]; reflexivity.
  - rewrite resource_doc_options.
    destruct (ResourceField.options f) as [[[a|] [i|] [s|] [p|]]|];
      reflexivity.
  - rewrite collection_doc_options.
    destruct (CollectionField.options f) as [[[a|] [i|] [s|] [p|]]|];
      reflexivity.
Qed.

(** C5: for a polymorphic [schema-object], [schema-array], [resource] or
    [collection] field and any raw element, the key under which the
    discriminator is read from the element is [options.type] when the field
    provides it and "type" otherwise; [resource] and [collection] fields,
    whose options declare no [type], always read "type". *)
Theorem discriminator_key_default (x : FieldSchema) (rawElement : ObjectValue) :
  PolymorphismResolver.served (Field.kind x) = true ->
  Options.polymorphic x = Some true ->
  PolymorphismResolver.discriminatorKey (Doc.options (Field.toJSON x))
  = match Options.type x with Some key => key | None => "type" end
  /\ PolymorphismResolver.readDiscriminator
       (Doc.options (Field.toJSON x)) rawElement
     = match Options.type x with
       | Some key => get key rawElement
       | None => get "type" rawElement
       end
  /\ (Field.kind x = K_resource \/ Field.kind x = K_collection ->
      PolymorphismResolver.readDiscriminator
        (Doc.options (Field.toJSON x)) rawElement
      = get "type" rawElement).
Proof.
  intros Hserved _.
  pose proof (discriminatorKey_options x Hserved) as Hkey.
  split; [exact Hkey|].
  unfold PolymorphismResolver.readDiscriminator. rewrite Hkey.
  split.
  - destruct (Options.type x); reflexivity.
  - intros [Hk|Hk]; destruct x; try discriminate Hk; reflexivity.
Qed.

(** With [options.type] set to "kind" the resolver reads
    [rawElement.kind]. *)
Lemma discriminator_key_default_set :
  PolymorphismResolver.served
    (Field.kind (SchemaObject Sample.addressField)) = true
  /\ Options.polymorphic (SchemaObject Sample.addressField) = Some true
  /\ PolymorphismResolver.readDiscriminator
       (Doc.options (Field.toJSON (SchemaObject Sample.addressField)))
       Fixture.home
     = Some (VString "$field:Home").
Proof.
  split; [reflexivity|]. split; [reflexivity|].
  destruct (discriminator_key_default (SchemaObject Sample.addressField)
              Fixture.home) as [_ [H _]]; [reflexivity | reflexivity |].
  rewrite H. reflexivity.
Defined.

(** ** Hash identity *)

(** C4: the hash of a [HashField] is computed from the raw cache data of
    the record (and the field's own [options]) and from nothing else of the
    record: two records over the same cache data get the same result,
    whatever their local and derived state; resolution hands the record
    back as it was, storing nothing; the [name] of the field plays no part;
    and [type], the name of the hash function, is always present. *)
Theorem hash_reads_cache_only (transforms : HashResolver.Registry)
  (field : HashField.t) (r1 r2 : HashResolver.RecordHandle) :
  HashResolver.cache r1 = HashResolver.cache r2 ->
  fst (HashResolver.resolveHash transforms field r1)
  = fst (HashResolver.resolveHash transforms field r2)
  /\ snd (HashResolver.resolveHash transforms field r1) = r1
  /\ (forall name : option string,
        fst (HashResolver.resolveHash transforms
               (HashField.mk name (HashField.type field)
                  (HashField.options field)) r1)
        = fst (HashResolver.resolveHash transforms field r1))
  /\ prop "type" (HashField.toJSON field)
     = Some (VString (HashField.type field)).
Proof.
  intros Hcache. unfold HashResolver.resolveHash. simpl.
  destruct (transforms (HashField.type field)) as [hash|]; simpl;
    rewrite ?Hcache; repeat split.
Qed.

(** Two records over the same cache data, one of them with local and
    derived state, hash alike. *)
Lemma hash_reads_cache_only_sample :
  HashResolver.cache Fixture.fresh = HashResolver.cache Fixture.edited
  /\ fst (HashResolver.resolveHash Fixture.transforms Sample.hashField
            Fixture.fresh)
     = fst (HashResolver.resolveHash Fixture.transforms Sample.hashField
              Fixture.edited)
  /\ fst (HashResolver.resolveHash Fixture.transforms Sample.hashField
            Fixture.edited)
     = inr "1 Main St".
Proof.
  split; [reflexivity|]. split.
  - apply (hash_reads_cache_only Fixture.transforms Sample.hashField
             Fixture.fresh Fixture.edited).
    reflexivity.
  - reflexivity.
Defined.

(** ** Keys of schema-array elements *)

Lemma keyStrategy_literals :
  IdentityResolver.keyStrategy None = IdentityResolver.ByIdentity
  /\ IdentityResolver.keyStrategy (Some "@identity")
     = IdentityResolver.ByIdentity
  /\ IdentityResolver.keyStrategy (Some "@index") = IdentityResolver.ByIndex
  /\ IdentityResolver.keyStrategy (Some "@hash") = IdentityResolver.ByHash
  /\ IdentityResolver.keyStrategy (Some "street")
     = IdentityResolver.ByField "street".
Proof. repeat split. Qed.

Lemma computeKey_origin (transforms : HashResolver.Registry)
  (schema : ResourceSchema.t) (strategy : IdentityResolver.KeyStrategy)
  (element : IdentityResolver.Element) (index : nat)
  (prior : list (IdentityResolver.KeyValue * nat))
  (k : IdentityResolver.KeyValue) :
  IdentityResolver.computeKey transforms schema strategy element index prior
  = IdentityResolver.Key k ->
  IdentityResolver.originOfKey k = IdentityResolver.originOfStrategy strategy.
Proof.
  destruct strategy as [| | |name]; simpl.
  - intros H; inversion H; reflexivity.
  - intros H; inversion H; reflexivity.
  - destruct (ResourceSchema.identity schema) as [f|f|]; try discriminate.
    destruct (transforms (HashField.type f)); try discriminate.
    intros H; inversion H; reflexivity.
  - destruct (IdentityResolver.isGenericField schema name); try discriminate.
    intros H; inversion H; reflexivity.
Qed.

Lemma keyStrategy_field (name : string) :
  ~ In name IdentityResolver.reserved ->
  IdentityResolver.keyStrategy (Some name) = IdentityResolver.ByField name.
Proof.
  intros H. unfold IdentityResolver.keyStrategy.
  destruct (String.eqb_spec name "@identity") as [->|_];
    [exfalso; apply H; simpl; tauto|].
  destruct (String.eqb_spec name "@index") as [->|_];
    [exfalso; apply H; simpl; tauto|].
  destruct (String.eqb_spec name "@hash") as [->|_];
    [exfalso; apply H; simpl; tauto|].
  reflexivity.
Qed.

(** C6: the key of an element under each configuration of a schema-array
    field.  With [options.key] absent the [@identity] strategy applies: the
    key is the element's own referential identity, so two elements get the
    same key exactly when they are the same object, whatever their content
    and position.  Whatever is configured decides alone: ['@identity'] gives
    the reference, ['@index'] the index, ['@hash'] over a schema with a hash
    field the hash of the element's data, or the failure of the lookup of
    its function, and a field name the raw value of that field, or
    [InvalidIdentityFieldError] when it names no [field]-kind field; a
    strategy that fails yields its error and never the key of another
    strategy, and every key produced comes from the configured one. *)
Theorem schema_array_key_strategy (transforms : HashResolver.Registry)
  (schema : ResourceSchema.t) (f : SchemaArrayField.t)
  (element : IdentityResolver.Element) (index : nat)
  (prior : list (IdentityResolver.KeyValue * nat)) :
  (IdentityResolver.configuredKey f = None ->
   IdentityResolver.keyOf transforms schema f element index prior
   = IdentityResolver.Key
       (IdentityResolver.KIdentity (IdentityResolver.ref element))
   /\ (forall (other : IdentityResolver.Element) (index' : nat),
         IdentityResolver.keyOf transforms schema f other index' prior
         = IdentityResolver.keyOf transforms schema f element index prior
         <-> IdentityResolver.ref other = IdentityResolver.ref element))
  /\ (IdentityResolver.configuredKey f = Some "@identity" ->
      IdentityResolver.keyOf transforms schema f element index prior
      = IdentityResolver.Key
          (IdentityResolver.KIdentity (IdentityResolver.ref element)))
  /\ (IdentityResolver.configuredKey f = Some "@index" ->
      IdentityResolver.keyOf transforms schema f element index prior
      = IdentityResolver.Key (IdentityResolver.KIndex index))
  /\ (IdentityResolver.configuredKey f = Some "@hash" ->
      forall field : HashField.t,
        ResourceSchema.identity schema = ResourceSchema.ByHash field ->
        IdentityResolver.keyOf transforms schema f element index prior
        = match transforms (HashField.type field) with
          | Some hash =>
              IdentityResolver.Key
                (IdentityResolver.KHash
                   (hash (IdentityResolver.data element)
                      (HashField.options field)))
          | None =>
              IdentityResolver.Failure
                (IdentityResolver.UnknownTransformError
                   (HashField.type field))
          end)
  /\ (forall name : string,
        IdentityResolver.configuredKey f = Some name ->
        ~ In name IdentityResolver.reserved ->
        IdentityResolver.keyOf transforms schema f element index prior
        = if IdentityResolver.isGenericField schema name
          then IdentityResolver.Key
                 (IdentityResolver.KField
                    (get name (IdentityResolver.data element)))
          else IdentityResolver.Failure
                 (IdentityResolver.InvalidIdentityFieldError name))
  /\ (forall k : IdentityResolver.KeyValue,
        IdentityResolver.keyOf transforms schema f element index prior
        = IdentityResolver.Key k ->
        IdentityResolver.originOfKey k
        = IdentityResolver.originOfStrategy (IdentityResolver.strategyOf f)).
Proof.
  unfold IdentityResolver.keyOf, IdentityResolver.strategyOf.
  split.
  { intros Hkey. rewrite Hkey. simpl. split; [reflexivity|].
    intros other index'. split.
    - intros H; inversion H; reflexivity.
    - intros ->. reflexivity. }
  split; [intros Hkey; rewrite Hkey; reflexivity|].
  split; [intros Hkey; rewrite Hkey; reflexivity|].
  split.
  { intros Hkey field Hid. rewrite Hkey. simpl. rewrite Hid. reflexivity. }
  split.
  { intros name Hkey Hname. rewrite Hkey, (keyStrategy_field name Hname).
    reflexivity. }
  intros k. apply computeKey_origin.
Qed.

(** ** The sample schemas *)

Example user_identity :
  ResourceSchema.identityCount Sample.user = 1
  /\ ResourceSchema.allKinds Sample.user = [K_id; K_field; K_alias; K_field].
Proof. split; reflexivity. Qed.

Example address_identity :
  ResourceSchema.identityCount Sample.address = 1
  /\ ResourceSchema.allKinds Sample.address = [K_hash; K_field].
Proof. split; reflexivity. Qed.

Example displayName_document :
  Field.toJSON (Alias Sample.displayNameField)
  = VObject [("kind", VString "alias"); ("name", VString "displayName");
             ("type", VNull);
             ("options", VObject [("kind", VString "field");
                                  ("name", VString "name")])].
Proof. reflexivity. Qed.

Example default_key :
  IdentityResolver.strategyOf Sample.addressesField
  = IdentityResolver.ByIdentity
  /\ IdentityResolver.computeKey Fixture.transforms Sample.address
       (IdentityResolver.strategyOf Sample.addressesField)
       Fixture.element 3 []
     = IdentityResolver.Key (IdentityResolver.KIdentity 7).
Proof. split; reflexivity. Qed.

Example indexed_key :
  IdentityResolver.computeKey Fixture.transforms Sample.address
    (IdentityResolver.strategyOf Sample.indexedAddressesField)
    Fixture.element 0 []
  = IdentityResolver.Key (IdentityResolver.KIndex 0).
Proof. reflexivity. Qed.

Example hash_key_without_hash_field :
  IdentityResolver.computeKey Fixture.transforms Sample.user
    IdentityResolver.ByHash Fixture.element 0 []
  = IdentityResolver.Unspecified.
Proof. reflexivity. Qed.

Example hashed_key :
  IdentityResolver.computeKey Fixture.transforms Sample.address
    (IdentityResolver.keyStrategy (Some "@hash")) Fixture.element 0 []
  = IdentityResolver.Key (IdentityResolver.KHash "1 Main St").
Proof. reflexivity. Qed.

Example street_key :
  IdentityResolver.computeKey Fixture.transforms Sample.address
    (IdentityResolver.ByField "street") Fixture.element 0 []
  = IdentityResolver.Key
      (IdentityResolver.KField (Some (VString "1 Main St"))).
Proof. reflexivity. Qed.

Example unknown_key_field :
  IdentityResolver.computeKey Fixture.transforms Sample.address
    (IdentityResolver.ByField "zip") Fixture.element 0 []
  = IdentityResolver.Failure (IdentityResolver.InvalidIdentityFieldError "zip").
Proof. reflexivity. Qed.

Example default_discriminator :
  PolymorphismResolver.resolveConcreteSchema
    (String.eqb "$field:Address")
    (Doc.options (Field.toJSON (SchemaObject Sample.plainAddressField)))
    Fixture.home
  = inr "$field:Address".
Proof. reflexivity. Qed.

(** * Further properties of the schema types *)

(** ** Documents determine definitions *)

Ltac document_inj :=
  simpl; intros H; inversion H; subst; reflexivity.

Lemma GenericField_toJSON_inj (f g : GenericField.t) :
  GenericField.toJSON f = GenericField.toJSON g -> f = g.
Proof.
  destruct f as [n [t|] [o|]], g as [n' [t'|] [o'|]]; document_inj.
Qed.

Lemma LocalField_toJSON_inj (f g : LocalField.t) :
  LocalField.toJSON f = LocalField.toJSON g -> f = g.
Proof.
  destruct f as [n [t|] [[[d|]]|]], g as [n' [t'|] [[[d'|]]|]]; document_inj.
Qed.

Lemma ObjectField_toJSON_inj (f g : ObjectField.t) :
  ObjectField.toJSON f = ObjectField.toJSON g -> f = g.
Proof.
  destruct f as [n [t|] [o|]], g as [n' [t'|] [o'|]]; document_inj.
Qed.

Lemma SchemaObjectField_toJSON_inj (f g : SchemaObjectField.t) :
  SchemaObjectField.toJSON f = SchemaObjectField.toJSON g -> f = g.
Proof.
  destruct f as [n t [[[p|] [k|]]|]], g as [n' t' [[[p'|] [k'|]]|]];
    document_inj.
Qed.

Lemma ArrayField_toJSON_inj (f g : ArrayField.t) :
  ArrayField.toJSON f = ArrayField.toJSON g -> f = g.
Proof.
  destruct f as [n [t|] [o|]], g as [n' [t'|] [o'|]]; document_inj.
Qed.

Lemma SchemaArrayField_toJSON_inj (f g : SchemaArrayField.t) :
  SchemaArrayField.toJSON f = SchemaArrayField.toJSON g -> f = g.
Proof.
  destruct f as [n t [[[k|] [p|] [ty|]]|]],
           g as [n' t' [[[k'|] [p'|] [ty'|]]|]]; document_inj.
Qed.

Lemma DerivedField_toJSON_inj (f g : DerivedField.t) :
  DerivedField.toJSON f = DerivedField.toJSON g -> f = g.
Proof.
  destruct f as [n t [o|]], g as [n' t' [o'|]]; document_inj.
Qed.

Lemma RelationshipOptions_toJSON_inj (o o' : RelationshipOptions.t) :
  RelationshipOptions.toJSON o = RelationshipOptions.toJSON o' -> o = o'.
Proof.
  destruct o as [[a|] [[i|]|] [s|] [p|]], o' as [[a'|] [[i'|]|] [s'|] [p'|]];
    document_inj.
Qed.

Lemma LegacyRelationshipOptions_toJSON_inj (o o' : LegacyRelationshipOptions.t) :
  LegacyRelationshipOptions.toJSON o = LegacyRelationshipOptions.toJSON o' ->
  o = o'.
Proof.
  destruct o as [a [i|] [s|] [p|] [[]|]], o' as [a' [i'|] [s'|] [p'|] [[]|]];
    document_inj.
Qed.

Lemma ResourceField_toJSON_inj (f g : ResourceField.t) :
  ResourceField.toJSON f = ResourceField.toJSON g -> f = g.
Proof.
  destruct f as [n t [o|]], g as [n' t' [o'|]]; simpl; intros H;
    inversion H; subst; try reflexivity.
  f_equal. f_equal. now apply RelationshipOptions_toJSON_inj.
Qed.

Lemma CollectionField_toJSON_inj (f g : CollectionField.t) :
  CollectionField.toJSON f = CollectionField.toJSON g -> f = g.
Proof.
  destruct f as [n t [o|]], g as [n' t' [o'|]]; simpl; intros H;
    inversion H; subst; try reflexivity.
  f_equal. f_equal. now apply RelationshipOptions_toJSON_inj.
Qed.

Lemma LegacyAttributeField_toJSON_inj (f g : LegacyAttributeField.t) :
  LegacyAttributeField.toJSON f = LegacyAttributeField.toJSON g -> f = g.
Proof.
  destruct f as [n [[t|]|] [o|]], g as [n' [[t'|]|] [o'|]]; document_inj.
Qed.

Lemma LegacyBelongsToField_toJSON_inj (f g : LegacyBelongsToField.t) :
  LegacyBelongsToField.toJSON f = LegacyBelongsToField.toJSON g -> f = g.
Proof.
  intros H.
  pose proof (f_equal Doc.options H) as Ho.
  rewrite !belongsTo_doc_options in Ho.
  apply LegacyRelationshipOptions_toJSON_inj in Ho.
  pose proof (f_equal (prop "name") H) as Hn.
  pose proof (f_equal (prop "type") H) as Ht.
  destruct f as [n t o], g as [n' t' o']; simpl in Ho, Hn, Ht.
  inversion Hn; inversion Ht; subst. reflexivity.
Qed.

Lemma LegacyHasManyField_toJSON_inj (f g : LegacyHasManyField.t) :
  LegacyHasManyField.toJSON f = LegacyHasManyField.toJSON g -> f = g.
Proof.
  intros H.
  pose proof (f_equal Doc.options H) as Ho.
  rewrite !hasMany_doc_options in Ho.
  apply LegacyRelationshipOptions_toJSON_inj in Ho.
  pose proof (f_equal (prop "name") H) as Hn.
  pose proof (f_equal (prop "type") H) as Ht.
  destruct f as [n t o], g as [n' t' o']; simpl in Ho, Hn, Ht.
  inversion Hn; inversion Ht; subst. reflexivity.
Qed.

Lemma target_toJSON_inj (x y : AliasField.Target) :
  AliasField.targetToJSON x = AliasField.targetToJSON y -> x = y.
Proof.
  intros H.
  assert (Hk : AliasField.targetKind x = AliasField.targetKind y).
  { apply kind_tag_inj.
    pose proof (target_toJSON_kind x) as Hx.
    pose proof (target_toJSON_kind y) as Hy.
    congruence. }
  destruct x, y; try discriminate Hk; f_equal; simpl in H.
  - now apply GenericField_toJSON_inj.
  - now apply ObjectField_toJSON_inj.
  - now apply SchemaObjectField_toJSON_inj.
  - now apply ArrayField_toJSON_inj.
  - now apply SchemaArrayField_toJSON_inj.
  - now apply ResourceField_toJSON_inj.
  - now apply CollectionField_toJSON_inj.
  - now apply LegacyAttributeField_toJSON_inj.
  - now apply LegacyBelongsToField_toJSON_inj.
  - now apply LegacyHasManyField_toJSON_inj.
Qed.

Lemma AliasField_toJSON_inj (f g : AliasField.t) :
  AliasField.toJSON f = AliasField.toJSON g -> f = g.
Proof.
  destruct f as [n [] t], g as [n' [] t']; intros H.
  pose proof (f_equal (prop "name") H) as Hn.
  pose proof (f_equal (prop "options") H) as Ho.
  simpl in Hn, Ho. inversion Hn. inversion Ho as [Ht].
  apply target_toJSON_inj in Ht. subst. reflexivity.
Qed.

Lemma Field_toJSON_inj (x y : FieldSchema) :
  Field.toJSON x = Field.toJSON y -> x = y.
Proof.
  intros H.
  assert (Hk : Field.kind x = Field.kind y).
  { apply kind_tag_inj.
    pose proof (toJSON_kind x) as Hx.
    pose proof (toJSON_kind y) as Hy.
    congruence. }
  destruct x, y; try discriminate Hk; f_equal; simpl in H.
  - now apply GenericField_toJSON_inj.
  - now apply AliasField_toJSON_inj.
  - now apply LocalField_toJSON_inj.
  - now apply ObjectField_toJSON_inj.
  - now apply SchemaObjectField_toJSON_inj.
  - now apply ArrayField_toJSON_inj.
  - now apply SchemaArrayField_toJSON_inj.
  - now apply DerivedField_toJSON_inj.
  - now apply ResourceField_toJSON_inj.
  - now apply CollectionField_toJSON_inj.
  - now apply LegacyAttributeField_toJSON_inj.
  - now apply LegacyBelongsToField_toJSON_inj.
  - now apply LegacyHasManyField_toJSON_inj.
Qed.

Lemma map_inj {A B : Type} (f : A -> B) :
  (forall a b, f a = f b -> a = b) ->
  forall l l', map f l = map f l' -> l = l'.
Proof.
  intros Hf. induction l as [|a l IH]; destruct l' as [|b l']; simpl;
    intros H; try reflexivity; try discriminate H.
  inversion H as [[Ha Hl]]. f_equal; [now apply Hf | now apply IH].
Qed.

Lemma identity_toJSON_inj (i j : ResourceSchema.Identity) :
  ResourceSchema.identityToJSON i = ResourceSchema.identityToJSON j -> i = j.
Proof.
  destruct i as [[n]|[[n|] t [o|]]|], j as [[n']|[[n'|] t' [o'|]]|];
    simpl; intros H; inversion H; subst; reflexivity.
Qed.

Lemma VString_inj (a b : string) : VString a = VString b -> a = b.
Proof. intros H; inversion H; reflexivity. Qed.

Lemma Schema_toJSON_inj (s s' : ResourceSchema.t) :
  ResourceSchema.toJSON s = ResourceSchema.toJSON s' -> s = s'.
Proof.
  destruct s as [[l|] i t [tr|] fs], s' as [[l'|] i' t' [tr'|] fs'];
    unfold ResourceSchema.toJSON; simpl; intros H; inversion H;
    repeat match goal with
      | E : ResourceSchema.identityToJSON _ = ResourceSchema.identityToJSON _
        |- _ => apply identity_toJSON_inj in E
      | E : map VString _ = map VString _ |- _ =>
          apply (map_inj VString VString_inj) in E
      | E : map Field.toJSON _ = map Field.toJSON _ |- _ =>
          apply (map_inj Field.toJSON Field_toJSON_inj) in E
      end; subst; reflexivity.
Qed.

(** X1: a document stands for one definition only.  Two field definitions
    of [FieldSchema] with the same document are the same member of the
    union with the same properties, and so are two schemas: the [kind] tags
    tell the members apart and the property names tell apart what a
    definition sets from what it leaves out. *)
Theorem documents_determine_definitions :
  (forall x y : FieldSchema, Field.toJSON x = Field.toJSON y -> x = y)
  /\ (forall s s' : ResourceSchema.t,
        ResourceSchema.toJSON s = ResourceSchema.toJSON s' -> s = s').
Proof.
  split; [exact Field_toJSON_inj | exact Schema_toJSON_inj].
Qed.

(** ** What an alias can stand for *)

Lemma ofTarget_inj (t t' : AliasField.Target) :
  Field.ofTarget t = Field.ofTarget t' -> t = t'.
Proof.
  destruct t, t'; simpl; intros H; inversion H; reflexivity.
Qed.

(** X2: the members of [FieldSchema] an alias can carry in [options] are
    all of them but [alias], [@local] and [derived]: a field definition is
    the reading of some alias target exactly when its kind is none of these
    three, that target is unique, and it has the document of the field. *)
Theorem aliasable_fields :
  (forall x : FieldSchema,
      (exists t : AliasField.Target, Field.ofTarget t = x)
      <-> ~ In (Field.kind x) Shape.notAliasable)
  /\ (forall t t' : AliasField.Target,
        Field.ofTarget t = Field.ofTarget t' -> t = t')
  /\ (forall (n : string) (t : AliasField.Target),
        prop "options" (Field.toJSON (Alias (AliasField.mk n null t)))
        = Some (Field.toJSON (Field.ofTarget t))).
Proof.
  split.
  { intros x. split.
    - intros [t <-]. destruct t; simpl; intuition discriminate.
    - intros H.
      destruct x as [f|f|f|f|f|f|f|f|f|f|f|f|f];
        try (exfalso; apply H; simpl; tauto).
      + exists (AliasField.TGeneric f); reflexivity.
      + exists (AliasField.TObject f); reflexivity.
      + exists (AliasField.TSchemaObject f); reflexivity.
      + exists (AliasField.TArray f); reflexivity.
      + exists (AliasField.TSchemaArray f); reflexivity.
      + exists (AliasField.TResource f); reflexivity.
      + exists (AliasField.TCollection f); reflexivity.
      + exists (AliasField.TLegacyAttribute f); reflexivity.
      + exists (AliasField.TLegacyBelongsTo f); reflexivity.
      + exists (AliasField.TLegacyHasMany f); reflexivity. }
  split; [exact ofTarget_inj|].
  intros n t. rewrite ofTarget_toJSON. reflexivity.
Qed.

(** ** The legacy unions *)

(** X3: [LegacyFieldSchema] is the part of [FieldSchema] of kinds
    [attribute], [belongsTo] and [hasMany], and [LegacyRelationshipSchema]
    the part of it of kinds [belongsTo] and [hasMany]; every legacy field
    can be carried by an alias, and the document of every legacy
    relationship holds its options, with [async] a boolean and [inverse] a
    string or [null]. *)
Theorem legacy_unions :
  (forall x : FieldSchema,
      (exists l : LegacyFieldSchema, Legacy.toField l = x)
      <-> In (Field.kind x) Legacy.kinds)
  /\ (forall l : LegacyFieldSchema,
        (exists r : LegacyRelationshipSchema, Legacy.ofRelationship r = l)
        <-> In (Field.kind (Legacy.toField l)) Legacy.relationshipKinds)
  /\ (forall l : LegacyFieldSchema,
        Field.ofTarget (Legacy.toTarget l) = Legacy.toField l)
  /\ (forall r : LegacyRelationshipSchema,
        let o := Doc.options
                   (Field.toJSON (Legacy.toField (Legacy.ofRelationship r))) in
        o = LegacyRelationshipOptions.toJSON (Legacy.relationshipOptions r)
        /\ get "async" o
           = Some (VBoolean (LegacyRelationshipOptions.async
                               (Legacy.relationshipOptions r)))
        /\ get "inverse" o
           = Some (nullable (LegacyRelationshipOptions.inverse
                               (Legacy.relationshipOptions r)))).
Proof.
  split.
  { intros x. split.
    - intros [l <-]. destruct l; simpl; tauto.
    - intros H. destruct x as [f|f|f|f|f|f|f|f|f|f|f|f|f];
        try (exfalso; simpl in H; intuition discriminate).
      + exists (LFAttribute f); reflexivity.
      + exists (LFBelongsTo f); reflexivity.
      + exists (LFHasMany f); reflexivity. }
  split.
  { intros l. split.
    - intros [r <-]. destruct r; simpl; tauto.
    - intros H. destruct l as [f|f|f];
        try (exfalso; simpl in H; intuition discriminate).
      + exists (LRBelongsTo f); reflexivity.
      + exists (LRHasMany f); reflexivity. }
  split; [intros l; destruct l; reflexivity|].
  intros r. destruct r as [f|f]; simpl;
    [rewrite belongsTo_doc_options | rewrite hasMany_doc_options];
    destruct f as [n t [a i s p rs]]; simpl; repeat split.
Qed.

(** ** The shape of field documents *)

(** X4: [type] is a string in the document of every [schema-object],
    [schema-array], [derived], [resource], [collection], [belongsTo] and
    [hasMany] field, and of these kinds only: each other kind has a field
    whose document holds no string under [type]. *)
Theorem type_required_kinds :
  (forall x : FieldSchema,
      In (Field.kind x) Shape.typeRequired ->
      exists s : string, prop "type" (Field.toJSON x) = Some (VString s))
  /\ (forall k : Kind,
        In k field_kinds -> ~ In k Shape.typeRequired ->
        exists x : FieldSchema,
          Field.kind x = k
          /\ forall s : string, prop "type" (Field.toJSON x) <> Some (VString s)).
Proof.
  split.
  - intros x H.
    destruct x as [f|f|f|f|f|f|f|f|f|f|f|f|f];
      try (exfalso; simpl in H; intuition discriminate);
      destruct f as [n t o]; exists t; reflexivity.
  - intros k Hk Hn.
    destruct (Populated.bare k) as [x|] eqn:E.
    + exists x.
      destruct k; simpl in E; inversion E; subst x;
        try (exfalso; apply Hn; simpl; tauto);
        (split; [reflexivity | intros s; discriminate]).
    + exfalso. destruct k; simpl in E; try discriminate E;
        simpl in Hk; intuition discriminate.
Qed.

(** X5: [type] is [null] in the document of an alias or of a legacy
    attribute only: every alias has it, a legacy attribute may, and no other
    field of [FieldSchema] does. *)
Theorem null_type_kinds :
  (forall x : FieldSchema,
      prop "type" (Field.toJSON x) = Some VNull ->
      Field.kind x = K_alias \/ Field.kind x = K_attribute)
  /\ (forall x : FieldSchema,
        Field.kind x = K_alias -> prop "type" (Field.toJSON x) = Some VNull)
  /\ (forall f : LegacyAttributeField.t,
        prop "type" (LegacyAttributeField.toJSON f) = Some VNull
        <-> LegacyAttributeField.type f = Some None).
Proof.
  split.
  { intros x H.
    destruct x as [f|f|f|f|f|f|f|f|f|f|f|f|f];
      try (left; reflexivity); try (right; reflexivity); exfalso;
      destruct f as [n t o]; simpl in H;
      try (destruct t; destruct o; simpl in H); discriminate H. }
  split.
  { intros x H. destruct x as [f|f|f|f|f|f|f|f|f|f|f|f|f];
      try discriminate H.
    destruct f as [n [] t]. reflexivity. }
  intros f. destruct f as [n [[t|]|] [o|]]; simpl; split; intros H;
    try reflexivity; discriminate H.
Qed.

(** X6: [options] is an object in the document of every [alias],
    [belongsTo] and [hasMany] field, and of these kinds only: each other
    kind has a field whose document has no [options]. *)
Theorem options_required_kinds :
  (forall x : FieldSchema,
      In (Field.kind x) Shape.optionsRequired ->
      exists o : ObjectValue,
        prop "options" (Field.toJSON x) = Some (VObject o))
  /\ (forall k : Kind,
        In k field_kinds -> ~ In k Shape.optionsRequired ->
        exists x : FieldSchema,
          Field.kind x = k /\ prop "options" (Field.toJSON x) = None).
Proof.
  split.
  - intros x H.
    destruct x as [f|f|f|f|f|f|f|f|f|f|f|f|f];
      try (exfalso; simpl in H; intuition discriminate).
    + destruct f as [n [] t].
      destruct (AliasField.targetToJSON t) as [p|l|o] eqn:E.
      * destruct t; discriminate E.
      * destruct t; discriminate E.
      * exists o. simpl. rewrite E. reflexivity.
    + destruct f as [n t o]. eexists. reflexivity.
    + destruct f as [n t o]. eexists. reflexivity.
  - intros k Hk Hn.
    destruct (Populated.bare k) as [x|] eqn:E.
    + exists x.
      destruct k; simpl in E; inversion E; subst x;
        try (exfalso; apply Hn; simpl; tauto);
        (split; reflexivity).
    + exfalso. destruct k; simpl in E; try discriminate E;
        simpl in Hk; intuition discriminate.
Qed.

(** ** Which kinds declare which option *)

Lemma has_In (k : string) (o : ObjectValue) :
  has k o = true -> In k (Shape.names o).
Proof.
  unfold has. induction o as [|[k' v] o IH]; simpl.
  - discriminate.
  - destruct (String.eqb_spec k k') as [->|Hne]; [left; reflexivity|].
    intros H. right. apply IH. exact H.
Qed.

Ltac named_option :=
  match goal with
  | H : In _ (Shape.names _) |- _ =>
      simpl in H; intuition (subst; simpl; tauto)
  end.

Ltac populated :=
  match goal with
  | |- exists (x : FieldSchema) (o : ObjectValue), Field.kind x = ?k /\ _ =>
      match eval cbv in (Populated.full k) with
      | Some ?x => exists x; eexists; repeat split; reflexivity
      end
  end.

(** X8: the options the schema types declare, kind by kind.  On a field
    that is not an alias, [defaultValue] is an option of [@local] only,
    [key] of [schema-array] only, [type] of [schema-object] and
    [schema-array], [polymorphic] of these two and of the four relationship
    kinds, [async], [inverse] and [as] of the four relationship kinds, and
    [resetOnRemoteUpdate] of the two legacy ones; no other option is
    declared, and each of these is set by some field of each kind named. *)
Theorem declared_option_kinds :
  (forall (x : FieldSchema) (o : ObjectValue) (key : string),
      Field.kind x <> K_alias ->
      Options.declared x = Some o ->
      has key o = true ->
      In (Field.kind x) (Shape.declaringKinds key))
  /\ (forall (key : string) (k : Kind),
        In k (Shape.declaringKinds key) ->
        exists (x : FieldSchema) (o : ObjectValue),
          Field.kind x = k
          /\ Options.declared x = Some o
          /\ has key o = true).
Proof.
  split.
  - intros x o key Hx Hd Hh. apply has_In in Hh.
    destruct x as [f|f|f|f|f|f|f|f|f|f|f|f|f]; simpl in Hd;
      try discriminate Hd; try (exfalso; apply Hx; reflexivity).
    + destruct (LocalField.options f) as [[[d|]]|]; inversion Hd; subst o;
        named_option.
    + destruct (SchemaObjectField.options f) as [[[p|] [t|]]|];
        inversion Hd; subst o; named_option.
    + destruct (SchemaArrayField.options f) as [[[k|] [p|] [t|]]|];
        inversion Hd; subst o; named_option.
    + destruct (ResourceField.options f) as [[[a|] [i|] [s|] [p|]]|];
        inversion Hd; subst o; named_option.
    + destruct (CollectionField.options f) as [[[a|] [i|] [s|] [p|]]|];
        inversion Hd; subst o; named_option.
    + inversion Hd; subst o.
      destruct (LegacyBelongsToField.options f) as [a i [s|] [p|] [r|]];
        named_option.
    + inversion Hd; subst o.
      destruct (LegacyHasManyField.options f) as [a i [s|] [p|] [r|]];
        named_option.
  - intros key k. unfold Shape.declaringKinds.
    repeat match goal with
      | |- context [String.eqb key ?s] =>
          destruct (String.eqb_spec key s); [subst key|]
      end; simpl; intros H;
      repeat (destruct H as [<-|H]; [populated|]); contradiction.
Qed.

(** ** The identity slot of a schema document *)

(** X9: the document of a schema always has [identity], which is [null]
    exactly when the schema has no identity; otherwise it is a definition
    of kind [@id] or [@hash], and the document of no member of
    [FieldSchema]: what the slot holds could not be listed under
    [fields]. *)
Theorem identity_slot_document (s : ResourceSchema.t) :
  exists v : Value,
    prop "identity" (ResourceSchema.toJSON s) = Some v
    /\ (v = VNull <-> ResourceSchema.identity s = ResourceSchema.NoIdentity)
    /\ (v <> VNull ->
        Doc.isIdentityBearing v = true
        /\ forall x : FieldSchema, Field.toJSON x <> v).
Proof.
  exists (ResourceSchema.identityToJSON (ResourceSchema.identity s)).
  split.
  { destruct s as [[l|] i t tr fs]; reflexivity. }
  split.
  { destruct (ResourceSchema.identity s) as [f|f|]; simpl; split; intros H;
      try reflexivity; discriminate H. }
  intros Hv.
  assert (Hb : Doc.isIdentityBearing
                 (ResourceSchema.identityToJSON (ResourceSchema.identity s))
               = true).
  { destruct (ResourceSchema.identity s) as [f|f|]; simpl in *.
    - reflexivity.
    - destruct f as [[n|] t [o|]]; reflexivity.
    - exfalso. apply Hv. reflexivity. }
  split; [exact Hb|].
  intros x E. rewrite <- E, field_doc_not_identity in Hb. discriminate Hb.
Qed.
